(** * SLAD: the prototype-based GNN classifier of [slad_model.py]

    A shallow embedding of [balance_features_labels], [calculate_similarity],
    the three encoders, [MLPReadout] and [SLADGNN], followed by the
    properties of the specification.

    Conventions of the embedding:
    - shapes, control flow and the algebra of the formulas are modelled
      with a float tensor entry as a real number ([R]); float32 rounding,
      overflow and NaN are outside that model, and so is device placement;
    - the values of the prototype similarity are modelled a second time in
      binary32 arithmetic ([calculate_similarity_f32]), where rounding,
      overflow and NaN are what the code computes;
    - a 2-D tensor is a [matrix]: its column count (kept explicitly, a
      tensor of zero rows still has a width) and its list of rows;
    - a [torch.long] label tensor is a [list Z];
    - a Python call either returns or raises: [result];
    - [torch], [imblearn] and [torch_geometric] calls follow the
      documented contract of the library; the graph-convolution layers,
      GELU and the random generators are parameters of the development. *)

From Stdlib Require Import Reals Lra Lia String ZArith Bool Arith List SpecFloat.
Import ListNotations.

Local Open Scope string_scope.
Local Open Scope list_scope.

(** ** Python outcomes *)

Inductive exn : Type :=
| ValueError (msg : string)
| TypeError (msg : string)
| IndexError (msg : string)
| RuntimeError (msg : string).

Inductive result (A : Type) : Type :=
| Ok (a : A)
| Raise (e : exn).
Arguments Ok {A} a.
Arguments Raise {A} e.

Definition rbind {A B} (r : result A) (k : A -> result B) : result B :=
  match r with
  | Ok a => k a
  | Raise e => Raise e
  end.

Notation "x <- r ;; k" := (rbind r (fun x => k))
  (at level 61, r at next level, right associativity).
Notation "' p <- r ;; k" := (rbind r (fun p => k))
  (at level 61, p pattern, r at next level, right associativity).

(** ** Tensors *)

Definition vec := list R.

Record matrix : Type := Mat { ncols : nat; rows : list vec }.

Definition nrows (m : matrix) : nat := length (rows m).

Definition wf_matrix (m : matrix) : Prop :=
  Forall (fun r => length r = ncols m) (rows m).

Definition vec_sub (a b : vec) : vec :=
  map (fun p => (fst p - snd p)%R) (combine a b).

Definition vec_add (a b : vec) : vec :=
  map (fun p => (fst p + snd p)%R) (combine a b).

Definition vec_scale (c : R) (a : vec) : vec := map (Rmult c) a.

(** ** The class balancer *)

(** [torch.sum(labels == v).item()] *)
Definition count_label (v : Z) (labels : list Z) : Z :=
  Z.of_nat (length (filter (Z.eqb v) labels)).

(** [torch.where(labels == v)[0]]: the positions holding [v], ascending. *)
Fixpoint where_from (i : nat) (v : Z) (labels : list Z) : list nat :=
  match labels with
  | [] => []
  | l :: rest =>
      if Z.eqb l v then i :: where_from (S i) v rest
      else where_from (S i) v rest
  end.

Definition where_label (v : Z) (labels : list Z) : list nat :=
  where_from 0 v labels.

(** Line 14: [0 if count_0 < count_1 else 1]. *)
Definition minority_label (labels : list Z) : Z :=
  if (count_label 0 labels <? count_label 1 labels)%Z then 0%Z else 1%Z.

Definition minority_indices (labels : list Z) : list nat :=
  where_label (minority_label labels) labels.

(** [t.repeat(s)] on a 1-D tensor: [s] copies of [t] laid end to end;
    a negative count is refused by torch. *)
Definition tensor_repeat {A} (t : list A) (s : Z) : result (list A) :=
  if (s <? 0)%Z then Raise (RuntimeError "negative dimension")
  else Ok (concat (repeat t (Z.to_nat s))).

(** [features[idx]] with an index tensor: the rows gathered in the order of
    [idx]; an index past the last row is refused. *)
Fixpoint gather_rows (rs : list vec) (idx : list nat) : result (list vec) :=
  match idx with
  | [] => Ok []
  | i :: rest =>
      match nth_error rs i with
      | None => Raise (IndexError "index out of range")
      | Some r => tl <- gather_rows rs rest ;; Ok (r :: tl)
      end
  end.

(** [torch.cat([a, b], dim=0)] for two matrices of the width of [a]. *)
Definition cat_rows (a : matrix) (b : list vec) : matrix :=
  Mat (ncols a) (rows a ++ b).

(** [torch.ones(n, dtype=labels.dtype) * v] *)
Definition ones_times (n : Z) (v : Z) : result (list Z) :=
  if (n <? 0)%Z then Raise (RuntimeError "negative dimension")
  else Ok (map (fun o => (o * v)%Z) (repeat 1%Z (Z.to_nat n))).

(** The rows of [rs] whose label is [v] ([X[y == v]]). *)
Fixpoint rows_of_class (v : Z) (rs : list vec) (labels : list Z) : list vec :=
  match rs, labels with
  | r :: rs', l :: ls' =>
      if Z.eqb l v then r :: rows_of_class v rs' ls'
      else rows_of_class v rs' ls'
  | _, _ => []
  end.

(** [np.unique(y).size <= 1]: the labels hold at most one class. *)
Definition single_class (y : list Z) : bool :=
  match y with
  | [] => true
  | a :: rest => forallb (Z.eqb a) rest
  end.

(** The [SMOTE] object of line 24: the one-entry [sampling_strategy]
    dictionary and [k_neighbors] ([random_state] is the constant 42, which
    fixes the generators below). *)
Record SMOTE : Type := mkSMOTE {
  strategy_class : Z;
  strategy_count : Z;
  k_neighbors : Z
}.

Section Balancer.

(** The nearest-neighbour query of [fit_resample] (for each row of the
    class, the positions of its [k] nearest other rows) and the two
    seeded generators: the [i]-th integer drawn below a bound and the
    [i]-th interpolation step. *)
Variable kneighbors : list vec -> nat -> list (list nat).
Variable randint : nat -> nat -> nat.
Variable uniform : nat -> R.

(** imblearn's [_make_samples]: sample [i] starts from a row of the
    class and moves a random step towards one of its neighbours. *)
Definition make_samples (X_class : list vec) (k n_samples : nat) : list vec :=
  let nns := kneighbors X_class k in
  map (fun i =>
         let pick := randint (length X_class * k) i in
         let r := Nat.div pick k in
         let c := Nat.modulo pick k in
         let x := nth r X_class [] in
         let nb := nth (nth c (nth r nns []) 0%nat) X_class [] in
         vec_add x (vec_scale (uniform i) (vec_sub nb x)))
      (seq 0 n_samples).

(** imblearn's [SMOTE.fit_resample] with a dictionary strategy: the
    dictionary gives, for its class, the number of samples the class
    is to have AFTER resampling; the number generated is that target
    minus the present count.  The input is validated, copied, and the
    generated rows and labels are stacked below it. *)
Definition fit_resample (sm : SMOTE) (X : matrix) (y : list Z)
  : result (matrix * list Z) :=
  if negb (nrows X =? length y)%nat then
    Raise (ValueError "inconsistent numbers of samples")
  else if (ncols X =? 0)%nat then
    Raise (ValueError "0 feature(s)")
  else if single_class y then
    Raise (ValueError "the target needs to have more than 1 class")
  else
    let present := count_label (strategy_class sm) y in
    if (present =? 0)%Z then
      Raise (ValueError "target class not present in the data")
    else if (strategy_count sm <? present)%Z then
      Raise (ValueError "fewer samples asked than the class has")
    else
      let n_samples := (strategy_count sm - present)%Z in
      if (n_samples =? 0)%Z then Ok (X, y)
      else if (present <? k_neighbors sm + 1)%Z then
        Raise (ValueError "n_neighbors larger than n_samples_fit")
      else
        let X_class := rows_of_class (strategy_class sm) (rows X) y in
        let X_new :=
          make_samples X_class (Z.to_nat (k_neighbors sm)) (Z.to_nat n_samples) in
        Ok (cat_rows X X_new,
            y ++ repeat (strategy_class sm) (Z.to_nat n_samples)).

(** Lines 10-41.  [Ok None] is Python's implicit [return None] at the end
    of the function body. *)
Definition balance_features_labels
    (features : matrix) (labels : list Z)
    (over_sample_scale_factor : Z) (sample_method : string)
  : result (option (matrix * list Z)) :=
  let minority_label := minority_label labels in
  let minority_indices := where_label minority_label labels in
  let len := Z.of_nat (length minority_indices) in
  if ((len <=? 1)%Z || (over_sample_scale_factor =? 0)%Z)%bool then
    Ok (Some (features, labels))
  else if String.eqb sample_method "SMOTE" then
    let n_neighbor :=
      if (len - 1 <? over_sample_scale_factor)%Z then (len - 1)%Z
      else over_sample_scale_factor in
    let smote :=
      mkSMOTE minority_label (len * over_sample_scale_factor)%Z n_neighbor in
    '(features', labels') <- fit_resample smote features labels ;;
    Ok (Some (features', labels'))
  else if String.eqb sample_method "copy" then
    selected_indices <- tensor_repeat minority_indices over_sample_scale_factor ;;
    selected_features <- gather_rows (rows features) selected_indices ;;
    let features' := cat_rows features selected_features in
    added_labels <- ones_times (len * over_sample_scale_factor) minority_label ;;
    let labels' := labels ++ added_labels in
    Ok (Some (features', labels'))
  else Ok None.

End Balancer.

(** ** The prototype similarity module *)

(** Line 62: [epsilon = 1e-4]. *)
Definition epsilon : R := (1 / 10000)%R.

Definition sum_squares (v : vec) : R :=
  fold_right (fun a acc => (a * a + acc)%R) 0%R v.

(** [torch.norm(t, dim=-1)]: the 2-norm along the last axis. *)
Definition norm (v : vec) : R := sqrt (sum_squares v).

(** Line 64, on one entry. *)
Definition similarity_of_distance (distance : R) : R :=
  ln ((distance + 1) / (distance + epsilon)).

(** [expand] on the last axis: a row of the requested width is kept, a
    row of width one is broadcast. *)
Definition expand_last (m width : nat) (r : vec) : vec :=
  if (width =? m)%nat then r else repeat (hd 0%R r) m.

(** Lines 44-65. *)
Definition calculate_similarity (node_embedding prototypes : matrix)
  : result matrix :=
  let m := ncols node_embedding in
  let k := nrows prototypes in
  if negb ((ncols prototypes =? m)%nat || (ncols prototypes =? 1)%nat) then
    Raise (RuntimeError "expand: the sizes of the last axis do not match")
  else
    let prototypes_expanded :=
      map (expand_last m (ncols prototypes)) (rows prototypes) in
    Ok (Mat k
          (map (fun node =>
                  map (fun prototype =>
                         let distance := ((norm (vec_sub node prototype)) ^ 2)%R in
                         similarity_of_distance distance)
                      prototypes_expanded)
               (rows node_embedding))).

(** The squared Euclidean distance of the specification, written as the
    sum of the squared coordinate differences. *)
Definition squared_euclidean_distance (a b : vec) : R :=
  fold_right Rplus 0%R
    (map (fun p => ((fst p - snd p) * (fst p - snd p))%R) (combine a b)).

Definition entry (m : matrix) (i j : nat) : R :=
  nth j (nth i (rows m) []) 0%R.

(** *** The similarity values in float32

    The tensors of the code are float32 tensors.  The entries returned by
    lines 62-64 are modelled here in binary32 arithmetic: a significand of
    24 bits, exponents below 128, rounding to nearest with ties to even,
    signed zeros, infinities and NaN. *)

Definition float32 : Type := spec_float.

Definition f32_add : float32 -> float32 -> float32 := SFadd 24 128.
Definition f32_sub : float32 -> float32 -> float32 := SFsub 24 128.
Definition f32_mul : float32 -> float32 -> float32 := SFmul 24 128.
Definition f32_div : float32 -> float32 -> float32 := SFdiv 24 128.
Definition f32_sqrt : float32 -> float32 := SFsqrt 24 128.

(** An integer literal as a float32. *)
Definition f32_of_Z (z : Z) : float32 := binary_normalize 24 128 z 0 false.

Definition f32_zero : float32 := S754_zero false.
Definition f32_one : float32 := f32_of_Z 1.

(** Line 62: the Python float [1e-4] enters float32 arithmetic as the
    nearest float32, [13743895 * 2^-37]. *)
Definition f32_epsilon : float32 := S754_finite false 13743895 (-37).

(** The floats other than the infinities and NaN. *)
Definition f32_finite (a : float32) : bool :=
  match a with
  | S754_zero _ | S754_finite _ _ _ => true
  | S754_infinity _ | S754_nan => false
  end.

(** [torch.log] on one float32.  The exact cases are those every
    implementation agrees on (the logarithm of 1 is +0, of a zero minus
    infinity, of a negative number NaN); on the other finite arguments the
    result is that of the platform's logarithm [ln_rounded], which is not
    correctly rounded in general and is left a parameter. *)
Definition f32_log (ln_rounded : float32 -> float32) (a : float32) : float32 :=
  match a with
  | S754_nan => S754_nan
  | S754_zero _ => S754_infinity true
  | S754_infinity false => S754_infinity false
  | S754_infinity true => S754_nan
  | S754_finite true _ _ => S754_nan
  | S754_finite false _ _ => if SFeqb a f32_one then f32_zero else ln_rounded a
  end.

Definition vec32 := list float32.




Definition vec32_sub (a b : vec32) : vec32 :=
  map (fun p => f32_sub (fst p) (snd p)) (combine a b).

(** [torch.norm(t, dim=-1)]: the square root of the sum of the squares.
    The sum is taken in index order from +0, each square and each addition
    rounded; on a row of one entry and on a row of zeros no other order,
    and no fused multiply-add, gives another result. *)
Definition f32_sum (v : vec32) : float32 := fold_left f32_add v f32_zero.

Definition f32_norm (v : vec32) : float32 :=
  f32_sqrt (f32_sum (map (fun a => f32_mul a a) v)).

(** Line 63 on one pair of rows: [norm ** 2]. *)
Definition f32_distance (node prototype : vec32) : float32 :=
  let n := f32_norm (vec32_sub node prototype) in f32_mul n n.

(** Line 64 on one entry. *)
Definition f32_similarity (ln_rounded : float32 -> float32)
    (distance : float32) : float32 :=
  f32_log ln_rounded
    (f32_div (f32_add distance f32_one) (f32_add distance f32_epsilon)).



(** ** Elementwise functions *)

Definition map_matrix (f : R -> R) (m : matrix) : matrix :=
  Mat (ncols m) (map (map f) (rows m)).

Definition relu (a : R) : R := Rmax 0 a.

(** [F.leaky_relu] with its default slope 0.01. *)
Definition leaky_relu (a : R) : R := (Rmax 0 a + (1 / 100) * Rmin 0 a)%R.

(** [nn.Sigmoid] *)
Definition sigmoid (a : R) : R := (1 / (1 + exp (- a)))%R.

(** ** Results of [squeeze]: tensors of rank 0, 1 or 2 *)

Inductive tensor : Type :=
| Scalar (a : R)
| Vector (v : vec)
| Matrix2 (m : matrix).

(** [t.squeeze()] on a 2-D tensor drops every axis of size one. *)
Definition squeeze (m : matrix) : tensor :=
  if (nrows m =? 1)%nat then
    if (ncols m =? 1)%nat then Scalar (entry m 0 0)
    else Vector (nth 0 (rows m) [])
  else
    if (ncols m =? 1)%nat then Vector (map (fun r => hd 0%R r) (rows m))
    else Matrix2 m.

Definition rank (t : tensor) : nat :=
  match t with Scalar _ => 0 | Vector _ => 1 | Matrix2 _ => 2 end.

Definition elements (t : tensor) : list R :=
  match t with
  | Scalar a => [a]
  | Vector v => v
  | Matrix2 m => concat (rows m)
  end.

(** [nn.Linear]: [weight] has [out_features] rows of [in_features] entries. *)
Record Linear : Type := mkLinear {
  in_features : nat;
  out_features : nat;
  weight : list vec;
  bias : vec
}.

Definition dot (a b : vec) : R :=
  fold_right Rplus 0%R (map (fun p => (fst p * snd p)%R) (combine a b)).

(** [lin(x)]: [x @ weight.T + bias]; the width of [x] has to be
    [in_features]. *)
Definition Linear_forward (lin : Linear) (x : matrix) : result matrix :=
  if (ncols x =? in_features lin)%nat then
    Ok (Mat (out_features lin)
          (map (fun r =>
                  map (fun j => (dot r (nth j (weight lin) []) + nth j (bias lin) 0)%R)
                      (seq 0 (out_features lin)))
               (rows x)))
  else Raise (RuntimeError "mat1 and mat2 shapes cannot be multiplied").

(** A 3-D tensor (the prototype bank). *)
Record tensor3 : Type := mkTensor3 {
  dim0 : nat; dim1 : nat; dim2 : nat;
  data3 : list (list vec)
}.

(** [t.reshape(-1, t.size(-1))]: the first two axes are merged; with a
    last axis of size zero the [-1] cannot be inferred. *)
Definition reshape_last (t : tensor3) : result matrix :=
  if (dim2 t =? 0)%nat then
    Raise (RuntimeError "cannot reshape: the unspecified dimension is ambiguous")
  else Ok (Mat (dim2 t) (concat (data3 t))).

(** [F.dropout] refuses a rate outside [0, 1]. *)
Definition rate_refused (p : R) : bool :=
  if Rlt_dec p 0 then true else if Rlt_dec 1 p then true else false.

(** ** The model: construction and forward pass *)

(** What a constructor call allocates, in the order of the calls. *)
Inductive alloc : Type :=
| A_GCNConv (i o : nat)
| A_GATConv (i o heads : nat)
| A_TransformerConv (i o heads : nat)
| A_LayerNorm (width : nat)
| A_Linear (i o : nat)
| A_randn (shape : list nat).

(** The graph batch handed to [forward]. *)
Record graph (edges : Type) : Type := mkGraph {
  x : matrix;
  edge_index : edges;
  y : list Z
}.
Arguments mkGraph {edges} x edge_index y.
Arguments x {edges} g.
Arguments edge_index {edges} g.
Arguments y {edges} g.

(** The constructor arguments of [SLADGNN]. *)
Record config : Type := mkConfig {
  gnn_head_num : nat;
  gnn_dropout : R;
  activation_fuc : string;
  GNN_type : string;
  num_features : nat;
  hidden_sizes : list nat;
  num_classes : nat;
  num_prototypes_per_class : nat;
  mlp_input_dim : nat;
  mlp_hidden_dim : nat;
  mlp_output_dim : nat
}.

(** The state of the random generator, the layers of [torch_geometric]
    with their constructors and forward functions, [F.gelu] on one entry,
    the draws of the generator (a standard normal, an initial weight for a
    given fan-in, a dropout keep-bit) and the generators behind
    [SMOTE(random_state=42)]. *)
Class Library : Type := {
  seed : Type;
  edges : Type;
  GCNConv : Type;
  GATConv : Type;
  TransformerConv : Type;
  LayerNorm : Type;
  GCNConv_new : nat -> nat -> seed -> GCNConv * seed;
  GATConv_new : nat -> nat -> nat -> R -> seed -> GATConv * seed;
  TransformerConv_new : nat -> nat -> nat -> R -> seed -> TransformerConv * seed;
  LayerNorm_new : nat -> LayerNorm;
  GCNConv_forward : GCNConv -> matrix -> edges -> result matrix;
  GATConv_forward : GATConv -> matrix -> edges -> seed -> result matrix * seed;
  TransformerConv_forward :
    TransformerConv -> matrix -> edges -> seed -> result matrix * seed;
  LayerNorm_forward : LayerNorm -> matrix -> result matrix;
  gelu : R -> R;
  randn : seed -> R * seed;
  init_uniform : nat -> seed -> R * seed;
  bernoulli : R -> seed -> bool * seed;
  smote_kneighbors : list vec -> nat -> list (list nat);
  smote_randint : nat -> nat -> nat;
  smote_uniform : nat -> R
}.

Section Model.

Context {L : Library}.

Record world : Type := mkWorld { gen : seed; allocated : list alloc }.

(** Stateful computations that may raise; what was allocated and drawn
    before an exception stays allocated and drawn. *)
Definition M (A : Type) : Type := world -> result A * world.

Definition ret {A} (a : A) : M A := fun w => (Ok a, w).
Definition throw {A} (e : exn) : M A := fun w => (Raise e, w).
Definition lift {A} (r : result A) : M A := fun w => (r, w).

Definition mbind {A B} (m : M A) (k : A -> M B) : M B :=
  fun w =>
    match m w with
    | (Ok a, w') => k a w'
    | (Raise e, w') => (Raise e, w')
    end.

Notation "x <~ m ;; k" := (mbind m (fun x => k))
  (at level 61, m at next level, right associativity).

Definition log_alloc (a : alloc) : M unit :=
  fun w => (Ok tt, mkWorld (gen w) (allocated w ++ [a])).

Definition draw {A} (f : seed -> A * seed) : M A :=
  fun w => let (a, g) := f (gen w) in (Ok a, mkWorld g (allocated w)).

Definition draw_result {A} (f : seed -> result A * seed) : M A :=
  fun w => let (r, g) := f (gen w) in (r, mkWorld g (allocated w)).

Fixpoint mapM {A B} (f : A -> M B) (l : list A) : M (list B) :=
  match l with
  | [] => ret []
  | a :: rest => b <~ f a ;; bs <~ mapM f rest ;; ret (b :: bs)
  end.

(** [l[i]] on a Python list. *)
Definition index {A} (l : list A) (i : nat) : result A :=
  match nth_error l i with
  | Some a => Ok a
  | None => Raise (IndexError "list index out of range")
  end.

(** [l[-1]] *)
Definition index_last {A} (l : list A) : result A :=
  match l with
  | [] => Raise (IndexError "list index out of range")
  | _ => index l (length l - 1)
  end.

(** *** Constructors *)

Definition new_GCNConv (i o : nat) : M GCNConv :=
  _ <~ log_alloc (A_GCNConv i o) ;; draw (GCNConv_new i o).

Definition new_GATConv (i o heads : nat) (dropout : R) : M GATConv :=
  _ <~ log_alloc (A_GATConv i o heads) ;; draw (GATConv_new i o heads dropout).

Definition new_TransformerConv (i o heads : nat) (dropout : R)
  : M TransformerConv :=
  _ <~ log_alloc (A_TransformerConv i o heads) ;;
  draw (TransformerConv_new i o heads dropout).

Definition new_LayerNorm (width : nat) : M LayerNorm :=
  _ <~ log_alloc (A_LayerNorm width) ;; ret (LayerNorm_new width).

(** [nn.Linear(i, o, bias=True)] *)
Definition new_Linear (i o : nat) : M Linear :=
  _ <~ log_alloc (A_Linear i o) ;;
  w <~ mapM (fun _ => mapM (fun _ => draw (init_uniform i)) (seq 0 i)) (seq 0 o) ;;
  b <~ mapM (fun _ => draw (init_uniform i)) (seq 0 o) ;;
  ret (mkLinear i o w b).

(** [torch.randn(a, b, c)] *)
Definition new_randn (a b c : nat) : M tensor3 :=
  _ <~ log_alloc (A_randn [a; b; c]) ;;
  d <~ mapM (fun _ => mapM (fun _ => mapM (fun _ => draw randn) (seq 0 c))
                           (seq 0 b)) (seq 0 a) ;;
  ret (mkTensor3 a b c d).

(** *** Encoders *)

Record MultiLayerGCN : Type := mkGCN {
  gcn_activation : string;
  conv_layers : list GCNConv
}.

Record MultiLayerGAT : Type := mkGAT {
  gat_activation : string;
  gat_layers : list GATConv
}.

Record MultiLayerGTC : Type := mkGTC {
  gtc_layers : list TransformerConv;
  layerNormList : list LayerNorm
}.

(** Lines 69-75. *)
Definition MultiLayerGCN_init
    (num_features : nat) (hidden_sizes : list nat) (activation_fuc : string)
  : M MultiLayerGCN :=
  h0 <~ lift (index hidden_sizes 0) ;;
  first <~ new_GCNConv num_features h0 ;;
  others <~ mapM (fun i =>
                    a <~ lift (index hidden_sizes (i - 1)) ;;
                    b <~ lift (index hidden_sizes i) ;;
                    new_GCNConv a b)
                 (seq 1 (length hidden_sizes - 1)) ;;
  ret (mkGCN activation_fuc (first :: others)).

(** Lines 90-99. *)
Definition MultiLayerGAT_init
    (in_features : nat) (hidden_dims : list nat) (activation_fuc : string)
    (num_head : nat) (dropout : R)
  : M MultiLayerGAT :=
  h0 <~ lift (index hidden_dims 0) ;;
  first <~ new_GATConv in_features h0 num_head dropout ;;
  others <~ mapM (fun i =>
                    a <~ lift (index hidden_dims (i - 1)) ;;
                    b <~ lift (index hidden_dims i) ;;
                    new_GATConv (a * num_head) b num_head dropout)
                 (seq 1 (length hidden_dims - 1)) ;;
  ret (mkGAT activation_fuc (first :: others)).

(** Lines 114-123. *)
Definition MultiLayerGTC_init
    (in_features : nat) (hidden_dims : list nat) (num_head : nat) (dropout : R)
  : M MultiLayerGTC :=
  h0 <~ lift (index hidden_dims 0) ;;
  first <~ new_TransformerConv in_features h0 num_head dropout ;;
  others <~ mapM (fun i =>
                    a <~ lift (index hidden_dims (i - 1)) ;;
                    b <~ lift (index hidden_dims i) ;;
                    new_TransformerConv (a * num_head) b num_head dropout)
                 (seq 1 (length hidden_dims - 1)) ;;
  norms <~ mapM (fun i =>
                   h <~ lift (index hidden_dims i) ;;
                   new_LayerNorm (h * num_head))
                (seq 0 (length hidden_dims)) ;;
  ret (mkGTC (first :: others) norms).

(** Lines 77-86: the layer is called inside each branch of the
    [if]/[elif] chain, and the chain has no [else]. *)
Fixpoint GCN_loop (activation : string) (convs : list GCNConv)
    (x : matrix) (edge_index : edges) : result matrix :=
  match convs with
  | [] => Ok x
  | conv :: rest =>
      x' <- (if String.eqb activation "relu" then
               h <- GCNConv_forward conv x edge_index ;; Ok (map_matrix relu h)
             else if String.eqb activation "leaky_relu" then
               h <- GCNConv_forward conv x edge_index ;; Ok (map_matrix leaky_relu h)
             else if String.eqb activation "gelu" then
               h <- GCNConv_forward conv x edge_index ;; Ok (map_matrix gelu h)
             else Ok x) ;;
      GCN_loop activation rest x' edge_index
  end.

Definition MultiLayerGCN_forward (self : MultiLayerGCN) (data : graph edges)
  : M matrix :=
  lift (GCN_loop (gcn_activation self) (conv_layers self) (x data) (edge_index data)).

(** Lines 101-110. *)
Fixpoint GAT_loop (activation : string) (gats : list GATConv)
    (x : matrix) (edge_index : edges) : M matrix :=
  match gats with
  | [] => ret x
  | gat :: rest =>
      x' <~ (if String.eqb activation "relu" then
               h <~ draw_result (GATConv_forward gat x edge_index) ;;
               ret (map_matrix relu h)
             else if String.eqb activation "leaky_relu" then
               h <~ draw_result (GATConv_forward gat x edge_index) ;;
               ret (map_matrix leaky_relu h)
             else if String.eqb activation "gelu" then
               h <~ draw_result (GATConv_forward gat x edge_index) ;;
               ret (map_matrix gelu h)
             else ret x) ;;
      GAT_loop activation rest x' edge_index
  end.

Definition MultiLayerGAT_forward (self : MultiLayerGAT) (data : graph edges)
  : M matrix :=
  GAT_loop (gat_activation self) (gat_layers self) (x data) (edge_index data).

(** Lines 125-129. *)
Fixpoint GTC_loop (norms : list LayerNorm) (i : nat)
    (gtcs : list TransformerConv) (x : matrix) (edge_index : edges) : M matrix :=
  match gtcs with
  | [] => ret x
  | gtc :: rest =>
      ln_i <~ lift (index norms i) ;;
      h <~ draw_result (TransformerConv_forward gtc x edge_index) ;;
      x' <~ lift (LayerNorm_forward ln_i h) ;;
      GTC_loop norms (S i) rest x' edge_index
  end.

Definition MultiLayerGTC_forward (self : MultiLayerGTC) (data : graph edges)
  : M matrix :=
  GTC_loop (layerNormList self) 0 (gtc_layers self) (x data) (edge_index data).

(** *** The readout *)

Record MLPReadout : Type := mkMLPReadout {
  fc_layers : list Linear;
  n_layers : nat;
  dropout : R;
  training : bool
}.

(** Lines 133-140; a fresh module is in training mode. *)
Definition MLPReadout_init (input_dim output_dim : nat) (dropout : R)
    (n_layers : nat) : M MLPReadout :=
  hidden <~ mapM (fun n => new_Linear (input_dim / 2 ^ n) (input_dim / 2 ^ (n + 1)))
                 (seq 0 n_layers) ;;
  last <~ new_Linear (input_dim / 2 ^ n_layers) output_dim ;;
  ret (mkMLPReadout (hidden ++ [last]) n_layers dropout true).

(** [F.dropout(y, p, training)]: a rate outside [0, 1] raises
    [ValueError], in training mode or not; in training mode every entry is
    kept and rescaled, or zeroed, by its own draw. *)
Definition dropout_entry (p : R) (a : R) : M R :=
  keep <~ draw (bernoulli p) ;;
  ret (if keep : bool then (a / (1 - p))%R else 0%R).

Definition F_dropout (y : matrix) (p : R) (training : bool) : M matrix :=
  if rate_refused p then
    throw (ValueError "dropout probability has to be between 0 and 1")
  else if training then
    rs <~ mapM (mapM (dropout_entry p)) (rows y) ;; ret (Mat (ncols y) rs)
  else ret y.

(** Lines 144-147, for the values [ns] of the loop variable. *)
Fixpoint readout_loop (self : MLPReadout) (ns : list nat) (y : matrix)
  : M matrix :=
  match ns with
  | [] => ret y
  | n :: rest =>
      y1 <~ F_dropout y (dropout self) (training self) ;;
      fc <~ lift (index (fc_layers self) n) ;;
      y2 <~ lift (Linear_forward fc y1) ;;
      readout_loop self rest (map_matrix gelu y2)
  end.

(** Lines 142-149. *)
Definition MLPReadout_forward (self : MLPReadout) (x : matrix) : M matrix :=
  y <~ readout_loop self (seq 0 (n_layers self)) x ;;
  fc <~ lift (index (fc_layers self) (n_layers self)) ;;
  lift (Linear_forward fc y).

(** *** The plain MLP *)

Record MLP : Type := mkMLP {
  mlp_activation : string;
  fc1 : Linear;
  fc2 : Linear
}.

(** Lines 153-157. *)
Definition MLP_init (mlp_input_dim mlp_hidden_dim mlp_output_dim : nat)
    (activation_fuc : string) : M MLP :=
  first <~ new_Linear mlp_input_dim mlp_hidden_dim ;;
  second <~ new_Linear mlp_hidden_dim mlp_output_dim ;;
  ret (mkMLP activation_fuc first second).

(** Lines 159-168: the two linear layers are called outside the
    [if]/[elif] chain. *)
Definition MLP_forward (self : MLP) (x : matrix) : result matrix :=
  x1 <- Linear_forward (fc1 self) x ;;
  let x2 :=
    if String.eqb (mlp_activation self) "relu" then map_matrix relu x1
    else if String.eqb (mlp_activation self) "leaky_relu" then
      map_matrix leaky_relu x1
    else if String.eqb (mlp_activation self) "gelu" then map_matrix gelu x1
    else x1 in
  Linear_forward (fc2 self) x2.

(** *** The orchestrator *)

Inductive encoder : Type :=
| EncGCN (g : MultiLayerGCN)
| EncGAT (g : MultiLayerGAT)
| EncGTC (g : MultiLayerGTC).

(** [self.sigmoid] holds no parameter and is applied as [sigmoid]. *)
Record SLADGNN : Type := mkSLADGNN {
  GNN : encoder;
  prototype_layer : tensor3;
  mlp : MLPReadout
}.

(** The defaults [dropout=0.1, n_layers=1] of [MLPReadout]. *)
Definition default_dropout : R := (1 / 10)%R.
Definition default_n_layers : nat := 1.

(** Lines 173-195. *)
Definition SLADGNN_init (c : config) : M SLADGNN :=
  if String.eqb (GNN_type c) "gcn" then
    g <~ MultiLayerGCN_init (num_features c) (hidden_sizes c) (activation_fuc c) ;;
    d <~ lift (index_last (hidden_sizes c)) ;;
    p <~ new_randn (num_classes c) (num_prototypes_per_class c) d ;;
    m <~ MLPReadout_init (mlp_input_dim c) (mlp_output_dim c)
           default_dropout default_n_layers ;;
    ret (mkSLADGNN (EncGCN g) p m)
  else if String.eqb (GNN_type c) "gat" then
    g <~ MultiLayerGAT_init (num_features c) (hidden_sizes c) (activation_fuc c)
           (gnn_head_num c) (gnn_dropout c) ;;
    d <~ lift (index_last (hidden_sizes c)) ;;
    p <~ new_randn (num_classes c) (num_prototypes_per_class c)
           (d * gnn_head_num c) ;;
    m <~ MLPReadout_init (mlp_input_dim c) (mlp_output_dim c)
           default_dropout default_n_layers ;;
    ret (mkSLADGNN (EncGAT g) p m)
  else if String.eqb (GNN_type c) "gtc" then
    g <~ MultiLayerGTC_init (num_features c) (hidden_sizes c)
           (gnn_head_num c) (gnn_dropout c) ;;
    d <~ lift (index_last (hidden_sizes c)) ;;
    p <~ new_randn (num_classes c) (num_prototypes_per_class c)
           (d * gnn_head_num c) ;;
    m <~ MLPReadout_init (mlp_input_dim c) (mlp_output_dim c)
           default_dropout default_n_layers ;;
    ret (mkSLADGNN (EncGTC g) p m)
  else throw (ValueError "not supportive gnn.").

Definition GNN_forward (enc : encoder) (data : graph edges) : M matrix :=
  match enc with
  | EncGCN g => MultiLayerGCN_forward g data
  | EncGAT g => MultiLayerGAT_forward g data
  | EncGTC g => MultiLayerGTC_forward g data
  end.

(** Line 201: unpacking the value returned by the balancer. *)
Definition unpack_pair (r : option (matrix * list Z)) : result (matrix * list Z) :=
  match r with
  | Some p => Ok p
  | None => Raise (TypeError "cannot unpack non-iterable NoneType object")
  end.

(** Lines 197-208.  [output] is never read. *)
Definition SLADGNN_forward {O : Type} (self : SLADGNN) (data : graph edges)
    (mode : string) (over_sample_scale_factor : Z) (sample_method : string)
    (output : O) : M (tensor * list R) :=
  x0 <~ GNN_forward (GNN self) data ;;
  xy <~ (if String.eqb mode "train" then
           r <~ lift (balance_features_labels smote_kneighbors smote_randint smote_uniform
                        x0 (y data) over_sample_scale_factor sample_method) ;;
           lift (unpack_pair r)
         else ret (x0, y data)) ;;
  reshaped_prot_layer <~ lift (reshape_last (prototype_layer self)) ;;
  x1 <~ lift (calculate_similarity (fst xy) reshaped_prot_layer) ;;
  x2 <~ MLPReadout_forward (mlp self) x1 ;;
  let x3 := map_matrix sigmoid x2 in
  ret (squeeze x3, map IZR (snd xy)).

End Model.

(** ** Concrete inputs used by the examples *)

(** A nearest-neighbour query that lists, for each row, the first [k] other
    rows in index order (exact whenever the class has [k + 1] rows). *)
Definition index_neighbors (X : list vec) (k : nat) : list (list nat) :=
  map (fun r => firstn k (filter (fun j => negb (j =? r)%nat) (seq 0 (length X))))
      (seq 0 (length X)).

Definition first_pick (bound i : nat) : nat := 0%nat.

Definition half_step (i : nat) : R := (1 / 2)%R.

(** Five nodes with one feature each, three of class 0 and two of class 1. *)
Definition five_rows : matrix :=
  Mat 1 [[0%R]; [1%R]; [2%R]; [3%R]; [4%R]].

Definition five_labels : list Z := [0; 0; 0; 1; 1]%Z.

(** The number of members of the minority class. *)
Definition minority_count (labels : list Z) : Z :=
  count_label (minority_label labels) labels.

(** The output width of the layers of a readout on an input of the given
    width, when their widths fit ([None] when a layer is missing or refuses
    its input). *)
Fixpoint loop_width (fcs : list Linear) (ns : list nat) (width : nat)
  : option nat :=
  match ns with
  | [] => Some width
  | n :: rest =>
      match nth_error fcs n with
      | Some fc =>
          if (width =? in_features fc)%nat
          then loop_width fcs rest (out_features fc)
          else None
      | None => None
      end
  end.

Definition layers_width (self : MLPReadout) (width : nat)
  : option nat :=
  match loop_width (fc_layers self) (seq 0 (n_layers self)) width with
  | Some w =>
      match nth_error (fc_layers self) (n_layers self) with
      | Some fc => if (w =? in_features fc)%nat then Some (out_features fc) else None
      | None => None
      end
  | None => None
  end.

(** The output width of a readout on an input of the given width, when its
    forward pass gets through: [None] when the layers do not fit, and when
    there is a hidden layer and dropout refuses the rate. *)
Definition readout_width (self : MLPReadout) (width : nat)
  : option nat :=
  if negb (n_layers self =? 0)%nat && rate_refused (dropout self) then None
  else layers_width self width.

(** Two configurations that differ at most in [mlp_hidden_dim]. *)
Definition same_but_mlp_hidden_dim (c1 c2 : config) : Prop :=
  gnn_head_num c1 = gnn_head_num c2 /\
  gnn_dropout c1 = gnn_dropout c2 /\
  activation_fuc c1 = activation_fuc c2 /\
  GNN_type c1 = GNN_type c2 /\
  num_features c1 = num_features c2 /\
  hidden_sizes c1 = hidden_sizes c2 /\
  num_classes c1 = num_classes c2 /\
  num_prototypes_per_class c1 = num_prototypes_per_class c2 /\
  mlp_input_dim c1 = mlp_input_dim c2 /\
  mlp_output_dim c1 = mlp_output_dim c2.

(** *** A library instance for graphs without edges

    On a graph without edges a graph convolution sees, for each node, the
    node itself only: [GCNConv] and [GATConv] (which add self loops) and
    [TransformerConv] (through its root weight) reduce to a linear map of
    the node's own features, [heads] times as wide for the multi-head
    layers; the attention dropout of the layers is left off.  The
    generator state is a counter. *)

Definition counter_linear (i o : nat) (g : nat) : Linear * nat :=
  (mkLinear i o (repeat (repeat (1 / (INR g + 1))%R i) o) (repeat 0%R o), S g).

Definition mean (v : vec) : R := (fold_right Rplus 0 v / INR (length v))%R.

(** [nn.LayerNorm] at its initial weight 1 and bias 0. *)
Definition layer_norm_row (v : vec) : vec :=
  let mu := mean v in
  let var := mean (map (fun a => ((a - mu) * (a - mu))%R) v) in
  map (fun a => ((a - mu) / sqrt (var + 1 / 100000))%R) v.

Definition layer_norm (width : nat) (m : matrix) : result matrix :=
  if (ncols m =? width)%nat then Ok (Mat (ncols m) (map layer_norm_row (rows m)))
  else Raise (RuntimeError "normalized_shape does not match the input").

(** The tanh form of GELU. *)
Definition gelu_tanh (a : R) : R :=
  (a / 2 * (1 + tanh (sqrt (2 / PI) * (a + 44715 / 1000000 * (a * a * a)))))%R.

Definition edgeless : Library := {|
  seed := nat;
  edges := unit;
  GCNConv := Linear;
  GATConv := Linear;
  TransformerConv := Linear;
  LayerNorm := nat;
  GCNConv_new := counter_linear;
  GATConv_new := fun i o heads _ => counter_linear i (o * heads);
  TransformerConv_new := fun i o heads _ => counter_linear i (o * heads);
  LayerNorm_new := fun width => width;
  GCNConv_forward := fun c m _ => Linear_forward c m;
  GATConv_forward := fun c m _ g => (Linear_forward c m, g);
  TransformerConv_forward := fun c m _ g => (Linear_forward c m, g);
  LayerNorm_forward := layer_norm;
  gelu := gelu_tanh;
  randn := fun g => (INR g, S g);
  init_uniform := fun fan g => ((1 / (INR g + 1))%R, S g);
  bernoulli := fun _ g => (Nat.even g, S g);
  smote_kneighbors := index_neighbors;
  smote_randint := first_pick;
  smote_uniform := half_step
|}.

(** The configuration of the end-to-end scenario of the specification,
    and the same configuration with another encoder tag. *)
Definition scenario_config : config :=
  mkConfig 1 (1 / 5)%R "relu" "gcn" 8 [16; 16]%nat 2 3 6 32 1.

Definition sage_config : config :=
  mkConfig 1 (1 / 5)%R "relu" "sage" 8 [16; 16]%nat 2 3 6 32 1.

Definition fresh_world : world (L := edgeless) := mkWorld (L := edgeless) 0%nat [].

(** Two nodes of eight features and no edge, and a batch of one node. *)
Definition two_nodes : graph (edges (Library := edgeless)) :=
  mkGraph (Mat 8 [repeat 1%R 8; repeat 2%R 8]) tt [0; 1]%Z.

Definition one_node : graph (edges (Library := edgeless)) :=
  mkGraph (Mat 8 [repeat 1%R 8]) tt [1]%Z.

(** Ten nodes of eight features, eight of class 0 and two of class 1. *)
Definition ten_nodes : graph (edges (Library := edgeless)) :=
  mkGraph (Mat 8 (repeat (repeat 1%R 8) 10)) tt [0; 0; 0; 0; 0; 0; 0; 0; 1; 1]%Z.

(** A model with one convolution of width two, two prototypes and a
    readout from two similarities to one output. *)
Definition small_model : SLADGNN (L := edgeless) :=
  mkSLADGNN (L := edgeless)
    (EncGCN (L := edgeless)
       (mkGCN (L := edgeless) "relu" [fst (counter_linear 8 2 0)]))
    (mkTensor3 2 1 2 [[[0%R; 0%R]]; [[1%R; 1%R]]])
    (mkMLPReadout
       [mkLinear 2 1 [[1%R; 1%R]] [0%R]; mkLinear 1 1 [[1%R]] [0%R]]
       1 (1 / 10)%R true).

(** The small model with a readout of output width two, and with its
    readout outside training mode. *)
Definition wide_model : SLADGNN (L := edgeless) :=
  mkSLADGNN (L := edgeless)
    (EncGCN (L := edgeless)
       (mkGCN (L := edgeless) "relu" [fst (counter_linear 8 2 0)]))
    (mkTensor3 2 1 2 [[[0%R; 0%R]]; [[1%R; 1%R]]])
    (mkMLPReadout
       [mkLinear 2 1 [[1%R; 1%R]] [0%R]; mkLinear 1 2 [[1%R]; [1%R]] [0%R; 0%R]]
       1 (1 / 10)%R true).

Definition eval_readout : MLPReadout :=
  mkMLPReadout
    [mkLinear 2 1 [[1%R; 1%R]] [0%R]; mkLinear 1 1 [[1%R]] [0%R]]
    1 (1 / 10)%R false.

(** The same readout with the dropout rate 2. *)
Definition overrated_readout : MLPReadout :=
  mkMLPReadout
    [mkLinear 2 1 [[1%R; 1%R]] [0%R]; mkLinear 1 1 [[1%R]] [0%R]]
    1 2%R false.

(** A configuration of one convolution from one feature to width two, two
    prototypes and a readout from two similarities; the same with
    [mlp_input_dim] 3 instead of 2; and one with no hidden size. *)
Definition tiny_config : config :=
  mkConfig 1 (1 / 5)%R "relu" "gcn" 1 [2]%nat 2 1 2 32 1.

Definition mismatched_config : config :=
  mkConfig 1 (1 / 5)%R "relu" "gcn" 1 [2]%nat 2 1 3 32 1.

(** The five nodes of [five_rows] with their labels and no edge. *)
Definition five_nodes : graph (edges (Library := edgeless)) :=
  mkGraph five_rows tt five_labels.

Definition no_hidden_config : config :=
  mkConfig 1 (1 / 5)%R "relu" "gat" 8 [] 2 3 6 32 1.

(** Four feature rows, one short of [five_labels]. *)
Definition four_rows : matrix :=
  Mat 1 [[0%R]; [1%R]; [2%R]; [3%R]].

Definition two_prototypes : matrix := Mat 1 [[0%R]; [4%R]].

(** The input and output widths of a stack of layers: the first layer
    reads [prev], every later one reads [heads] times the width before. *)
Fixpoint layer_dims (heads prev : nat) (hs : list nat) : list (nat * nat) :=
  match hs with
  | [] => []
  | h :: rest => (prev, h) :: layer_dims heads (h * heads) rest
  end.

(** The output width of the encoder a configuration selects:
    [hidden_sizes[-1]], times the number of heads for gat and gtc. *)
Definition encoder_width (c : config) : nat :=
  if String.eqb (GNN_type c) "gcn" then last (hidden_sizes c) 0%nat
  else (last (hidden_sizes c) 0 * gnn_head_num c)%nat.

(** The non-negative entries. *)
Definition nonnegative (m : matrix) : Prop :=
  Forall (Forall (fun a => (0 <= a)%R)) (rows m).

(** * Properties *)

(** ** The class balancer *)

Lemma length_where_from (v : Z) (labels : list Z) (i : nat) :
  Z.of_nat (length (where_from i v labels)) = count_label v labels.
Proof.
  unfold count_label. f_equal. revert i.
  induction labels as [|l rest IH]; intros i; simpl; [reflexivity|].
  rewrite (Z.eqb_sym v l).
  destruct (Z.eqb l v); simpl; rewrite IH; reflexivity.
Qed.

Lemma length_minority_indices (labels : list Z) :
  Z.of_nat (length (where_label (minority_label labels) labels))
  = minority_count labels.
Proof. apply length_where_from. Qed.

Lemma where_from_bound (v : Z) (labels : list Z) (i : nat) :
  Forall (fun j => (i <= j < i + length labels)%nat) (where_from i v labels).
Proof.
  revert i. induction labels as [|l rest IH]; intros i; simpl; [constructor|].
  assert (H : Forall (fun j => (i <= j < i + S (length rest))%nat)
                (where_from (S i) v rest)).
  { eapply Forall_impl; [|apply IH]. simpl. intros j Hj. lia. }
  destruct (Z.eqb l v); [constructor; [lia|exact H]|exact H].
Qed.

Lemma gather_rows_ok (rs : list vec) (idx : list nat) :
  Forall (fun i => (i < length rs)%nat) idx ->
  gather_rows rs idx = Ok (map (fun i => nth i rs []) idx).
Proof.
  induction 1 as [|i rest Hi _ IH]; simpl; [reflexivity|].
  destruct (nth_error rs i) as [r|] eqn:E.
  - rewrite IH. simpl. rewrite (nth_error_nth _ _ _ E). reflexivity.
  - apply nth_error_None in E. lia.
Qed.

Lemma Forall_concat_repeat {A} (P : A -> Prop) (l : list A) (n : nat) :
  Forall P l -> Forall P (concat (repeat l n)).
Proof.
  intros H. induction n as [|n IH]; simpl; [constructor|].
  apply Forall_app. split; assumption.
Qed.

Lemma length_concat_repeat {A} (l : list A) (n : nat) :
  length (concat (repeat l n)) = (n * length l)%nat.
Proof.
  induction n as [|n IH]; simpl; [reflexivity|].
  rewrite length_app, IH. reflexivity.
Qed.

Lemma guard_passes (labels : list Z) (s : Z) :
  (2 <= minority_count labels)%Z -> (1 <= s)%Z ->
  ((Z.of_nat (length (where_label (minority_label labels) labels)) <=? 1)%Z
   || (s =? 0)%Z)%bool = false.
Proof.
  intros Hm Hs. rewrite length_minority_indices.
  apply orb_false_iff. split; [apply Z.leb_gt|apply Z.eqb_neq]; lia.
Qed.

Lemma count_label_pos_In (v : Z) (labels : list Z) :
  (0 < count_label v labels)%Z -> In v labels.
Proof.
  unfold count_label. intros H.
  destruct (filter (Z.eqb v) labels) as [|a rest] eqn:E; [simpl in H; lia|].
  assert (Ha : In a (filter (Z.eqb v) labels)) by (rewrite E; left; reflexivity).
  apply filter_In in Ha. destruct Ha as [Hin Heq].
  apply Z.eqb_eq in Heq. subst a. exact Hin.
Qed.

Lemma single_class_false (a b : Z) (labels : list Z) :
  In a labels -> In b labels -> a <> b -> single_class labels = false.
Proof.
  intros Ha Hb Hab. destruct labels as [|c rest]; [contradiction|].
  simpl. destruct (forallb (Z.eqb c) rest) eqn:E; [|reflexivity].
  exfalso. rewrite forallb_forall in E.
  assert (Hall : forall z, In z (c :: rest) -> z = c).
  { intros z [Hz|Hz]; [symmetry; exact Hz|].
    symmetry. apply Z.eqb_eq. apply E. exact Hz. }
  apply Hab. rewrite (Hall a Ha), (Hall b Hb). reflexivity.
Qed.

Lemma qualifying_minority_two_classes (labels : list Z) :
  (2 <= minority_count labels)%Z -> single_class labels = false.
Proof.
  unfold minority_count, minority_label. intros H.
  apply (single_class_false 0 1); [| |discriminate];
    apply count_label_pos_In;
    destruct (Z.ltb_spec (count_label 0 labels) (count_label 1 labels)); lia.
Qed.

Section BalancerProperties.

Variable kneighbors : list vec -> nat -> list (list nat).
Variable randint : nat -> nat -> nat.
Variable uniform : nat -> R.

(** C3.  When the minority class has at most one member, or the scale
    factor is zero, the balancer returns its feature matrix and its label
    vector as they are, whatever the sampling method. *)
Theorem balance_noop (features : matrix) (labels : list Z) (s : Z)
    (sample_method : string) :
  (minority_count labels <= 1)%Z \/ s = 0%Z ->
  balance_features_labels kneighbors randint uniform
    features labels s sample_method
  = Ok (Some (features, labels)).
Proof.
  intros H. unfold balance_features_labels.
  rewrite length_minority_indices.
  replace ((minority_count labels <=? 1)%Z || (s =? 0)%Z)%bool with true;
    [reflexivity|].
  symmetry. apply orb_true_iff.
  destruct H as [H|H]; [left; apply Z.leb_le; exact H|right; apply Z.eqb_eq; exact H].
Qed.

(** C9.  With a qualifying minority class and a positive scale factor, a
    sampling method that is neither SMOTE nor copy makes the balancer
    fall off the end of its body: it returns [None] and raises nothing. *)
Theorem balance_other_method_returns_None (features : matrix)
    (labels : list Z) (s : Z) (sample_method : string) :
  (2 <= minority_count labels)%Z -> (1 <= s)%Z ->
  sample_method <> "SMOTE" -> sample_method <> "copy" ->
  balance_features_labels kneighbors randint uniform
    features labels s sample_method
  = Ok None.
Proof.
  intros Hm Hs Hsmote Hcopy. unfold balance_features_labels.
  rewrite (guard_passes labels s Hm Hs).
  apply String.eqb_neq in Hsmote. apply String.eqb_neq in Hcopy.
  rewrite Hsmote, Hcopy. reflexivity.
Qed.

(** C4.  In copy mode, with at least two minority members and a scale
    factor of at least one, the labels returned are the input labels
    followed by [minority_count * scale] copies of the minority label,
    and the rows returned are the input rows, unchanged and in order,
    followed by the minority rows gathered [scale] times over. *)
Theorem balance_copy_appends (features : matrix) (labels : list Z) (s : Z) :
  nrows features = length labels ->
  (2 <= minority_count labels)%Z -> (1 <= s)%Z ->
  exists features' labels',
    balance_features_labels kneighbors randint uniform
      features labels s "copy"
    = Ok (Some (features', labels')) /\
    Z.of_nat (length labels')
    = (Z.of_nat (length labels) + minority_count labels * s)%Z /\
    firstn (length labels) labels' = labels /\
    Forall (fun l => l = minority_label labels)
           (skipn (length labels) labels') /\
    ncols features' = ncols features /\
    firstn (nrows features) (rows features') = rows features /\
    skipn (nrows features) (rows features')
    = concat (repeat (map (fun i => nth i (rows features) [])
                          (minority_indices labels))
                     (Z.to_nat s)).
Proof.
  intros Hrows Hm Hs. unfold balance_features_labels.
  rewrite (guard_passes labels s Hm Hs).
  change (String.eqb "copy" "SMOTE") with false.
  change (String.eqb "copy" "copy") with true. cbv iota.
  rewrite length_minority_indices.
  unfold tensor_repeat, ones_times.
  replace (s <? 0)%Z with false by (symmetry; apply Z.ltb_ge; lia).
  replace (minority_count labels * s <? 0)%Z with false
    by (symmetry; apply Z.ltb_ge; nia).
  cbn [rbind].
  rewrite gather_rows_ok.
  2:{ apply Forall_concat_repeat.
      eapply Forall_impl; [|apply (where_from_bound _ labels 0)].
      simpl. intros j Hj. unfold nrows in Hrows. lia. }
  cbn [rbind].
  eexists. eexists. split; [reflexivity|].
  repeat split.
  - rewrite length_app, length_map, repeat_length. nia.
  - rewrite firstn_app, Nat.sub_diag, firstn_all. simpl. apply app_nil_r.
  - rewrite skipn_app, Nat.sub_diag, skipn_all. simpl.
    apply Forall_forall. intros l Hl. apply in_map_iff in Hl.
    destruct Hl as [o [Ho Hin]]. apply repeat_spec in Hin. subst. lia.
  - unfold cat_rows. cbn [rows]. unfold nrows.
    rewrite firstn_app, Nat.sub_diag, firstn_all. simpl. apply app_nil_r.
  - unfold cat_rows. cbn [rows]. unfold nrows.
    rewrite skipn_app, Nat.sub_diag, skipn_all. simpl.
    unfold minority_indices. rewrite concat_map, map_repeat. reflexivity.
Qed.

(** C6, what the code does.  In SMOTE mode, with at least two minority
    members, a scale factor of at least one and a feature matrix of one
    row per label and at least one column, line 23 hands the sampler
    [minority_count * scale] as the size of the minority class after
    resampling, not as the number of samples to add: the call synthesises
    [minority_count * (scale - 1)] samples, not [minority_count * scale],
    from [k = min (minority_count - 1) scale] neighbours, stacks them
    below the unchanged input rows and appends as many minority labels. *)
Theorem balance_SMOTE_reaches_target (features : matrix) (labels : list Z)
    (s : Z) :
  nrows features = length labels -> ncols features <> 0%nat ->
  (2 <= minority_count labels)%Z -> (1 <= s)%Z ->
  let k := Z.to_nat (Z.min (minority_count labels - 1) s) in
  let n_new := Z.to_nat (minority_count labels * (s - 1)) in
  let X_class :=
    rows_of_class (minority_label labels) (rows features) labels in
  exists features' labels',
    balance_features_labels kneighbors randint uniform
      features labels s "SMOTE"
    = Ok (Some (features', labels')) /\
    ncols features' = ncols features /\
    rows features'
    = rows features ++ make_samples kneighbors randint uniform X_class k n_new /\
    labels' = labels ++ repeat (minority_label labels) n_new /\
    nrows features' = (nrows features + n_new)%nat /\
    length labels' = (length labels + n_new)%nat.
Proof.
  intros Hrows Hcols Hm Hs k n_new X_class.
  unfold balance_features_labels.
  rewrite (guard_passes labels s Hm Hs).
  change (String.eqb "SMOTE" "SMOTE") with true. cbv iota.
  rewrite length_minority_indices.
  unfold fit_resample. cbn [strategy_class strategy_count k_neighbors].
  replace (nrows features =? length labels)%nat with true
    by (symmetry; apply Nat.eqb_eq; exact Hrows).
  cbn [negb].
  replace (ncols features =? 0)%nat with false
    by (symmetry; apply Nat.eqb_neq; exact Hcols).
  rewrite (qualifying_minority_two_classes labels Hm).
  fold (minority_count labels).
  replace (minority_count labels =? 0)%Z with false
    by (symmetry; apply Z.eqb_neq; lia).
  replace (minority_count labels * s <? minority_count labels)%Z with false
    by (symmetry; apply Z.ltb_ge; nia).
  assert (Hk : (if (minority_count labels - 1 <? s)%Z
                then (minority_count labels - 1)%Z else s)
               = Z.min (minority_count labels - 1) s).
  { destruct (Z.ltb_spec (minority_count labels - 1) s); lia. }
  rewrite Hk.
  replace (minority_count labels * s - minority_count labels)%Z
    with (minority_count labels * (s - 1))%Z by ring.
  destruct (Z.eqb_spec (minority_count labels * (s - 1)) 0) as [E|E].
  - cbn [rbind]. exists features, labels. split; [reflexivity|].
    subst n_new. rewrite E. simpl.
    rewrite !app_nil_r, !Nat.add_0_r. repeat split; reflexivity.
  - replace (minority_count labels <? Z.min (minority_count labels - 1) s + 1)%Z
      with false by (symmetry; apply Z.ltb_ge; lia).
    cbn [rbind]. eexists. eexists. split; [reflexivity|].
    unfold cat_rows, nrows. cbn [rows ncols].
    rewrite !length_app, repeat_length.
    unfold make_samples. rewrite length_map, length_seq.
    repeat split; reflexivity.
Qed.

End BalancerProperties.

(** C5, as the code has it.  The minority label is 0 when label 0 occurs
    strictly less often than label 1, and 1 otherwise: when label 1 occurs
    strictly less often, and also when the two occur equally often (the tie
    goes to label 1). *)
Theorem minority_label_rule (labels : list Z) :
  ((count_label 0 labels < count_label 1 labels)%Z ->
   minority_label labels = 0%Z) /\
  ((count_label 1 labels < count_label 0 labels)%Z ->
   minority_label labels = 1%Z) /\
  (count_label 0 labels = count_label 1 labels ->
   minority_label labels = 1%Z).
Proof.
  unfold minority_label.
  destruct (Z.ltb_spec (count_label 0 labels) (count_label 1 labels));
    repeat split; intros; try reflexivity; lia.
Qed.

(** C5 fails as stated: zero and one occur once each in [[0; 1]], and the
    minority label computed is 1, not 0. *)
Lemma minority_label_tie_is_one :
  count_label 0 [0; 1]%Z = count_label 1 [0; 1]%Z /\
  minority_label [0; 1]%Z <> 0%Z.
Proof. split; [reflexivity|]. vm_compute. discriminate. Qed.

(** ** The prototype similarity module *)

Lemma nth_map_in {A B} (f : A -> B) (l : list A) (i : nat) (da : A) (db : B) :
  (i < length l)%nat -> nth i (map f l) db = f (nth i l da).
Proof.
  intros Hi. rewrite (nth_indep _ db (f da)) by (rewrite length_map; exact Hi).
  apply map_nth.
Qed.

Lemma sum_squares_nonneg (v : vec) : (0 <= sum_squares v)%R.
Proof.
  induction v as [|a v IH]; simpl; [lra|].
  pose proof (Rle_0_sqr a) as Ha. unfold Rsqr in Ha. lra.
Qed.

Lemma norm_squared (v : vec) : ((norm v) ^ 2)%R = sum_squares v.
Proof.
  unfold norm. simpl. rewrite Rmult_1_r.
  apply sqrt_sqrt. apply sum_squares_nonneg.
Qed.

Lemma sum_squares_sub (a b : vec) :
  sum_squares (vec_sub a b) = squared_euclidean_distance a b.
Proof.
  unfold vec_sub, squared_euclidean_distance.
  induction (combine a b) as [|p l IH]; simpl; [reflexivity|].
  rewrite IH. reflexivity.
Qed.

Lemma squared_euclidean_distance_nonneg (a b : vec) :
  (0 <= squared_euclidean_distance a b)%R.
Proof. rewrite <- sum_squares_sub. apply sum_squares_nonneg. Qed.












(** *** Instances of the balancer and similarity theorems *)

Lemma balance_noop_witness :
  ((minority_count [0; 0; 0; 0; 1]%Z <= 1)%Z \/ 3%Z = 0%Z) /\
  balance_features_labels index_neighbors first_pick half_step
    five_rows [0; 0; 0; 0; 1]%Z 3 "copy"
  = Ok (Some (five_rows, [0; 0; 0; 0; 1]%Z)).
Proof.
  assert (H : (minority_count [0; 0; 0; 0; 1]%Z <= 1)%Z \/ 3%Z = 0%Z).
  { left. apply Z.leb_le. reflexivity. }
  split; [exact H|].
  exact (balance_noop index_neighbors first_pick half_step
           five_rows [0; 0; 0; 0; 1]%Z 3 "copy" H).
Defined.

Lemma balance_other_method_returns_None_witness :
  (2 <= minority_count five_labels)%Z /\ (1 <= 2)%Z /\
  balance_features_labels index_neighbors first_pick half_step
    five_rows five_labels 2 "adasyn" = Ok None.
Proof.
  assert (Hm : (2 <= minority_count five_labels)%Z)
    by (apply Z.leb_le; reflexivity).
  assert (Hs : (1 <= 2)%Z) by (apply Z.leb_le; reflexivity).
  split; [exact Hm|]. split; [exact Hs|].
  apply (balance_other_method_returns_None index_neighbors first_pick half_step
           five_rows five_labels 2 "adasyn" Hm Hs); discriminate.
Defined.

Lemma balance_copy_appends_witness :
  exists features' labels',
    balance_features_labels index_neighbors first_pick half_step
      five_rows five_labels 2 "copy" = Ok (Some (features', labels')) /\
    Z.of_nat (length labels') = 9%Z /\
    skipn 5 (rows features') = [[3%R]; [4%R]; [3%R]; [4%R]].
Proof.
  assert (Hr : nrows five_rows = length five_labels) by reflexivity.
  assert (Hm : (2 <= minority_count five_labels)%Z)
    by (apply Z.leb_le; reflexivity).
  assert (Hs : (1 <= 2)%Z) by (apply Z.leb_le; reflexivity).
  destruct (balance_copy_appends index_neighbors first_pick half_step
              five_rows five_labels 2 Hr Hm Hs)
    as [f [l [Hrun [Hlen [_ [_ [_ [_ Hskip]]]]]]]].
  exists f, l. split; [exact Hrun|]. split; [exact Hlen|exact Hskip].
Defined.

Lemma balance_SMOTE_reaches_target_witness :
  exists features' labels',
    balance_features_labels index_neighbors first_pick half_step
      five_rows five_labels 2 "SMOTE" = Ok (Some (features', labels')) /\
    nrows features' = 7%nat /\
    labels' = [0; 0; 0; 1; 1; 1; 1]%Z.
Proof.
  assert (Hr : nrows five_rows = length five_labels) by reflexivity.
  assert (Hc : ncols five_rows <> 0%nat) by discriminate.
  assert (Hm : (2 <= minority_count five_labels)%Z)
    by (apply Z.leb_le; reflexivity).
  assert (Hs : (1 <= 2)%Z) by (apply Z.leb_le; reflexivity).
  destruct (balance_SMOTE_reaches_target index_neighbors first_pick half_step
              five_rows five_labels 2 Hr Hc Hm Hs)
    as [f [l [Hrun [_ [_ [Hl [Hn _]]]]]]].
  exists f, l. split; [exact Hrun|]. split; [exact Hn|exact Hl].
Defined.

(** C6 at two minority members and scale factor 2: the claim counts
    [2 * 2 = 4] new samples, and SMOTE mode returns the five input rows
    followed by two synthetic ones. *)
Lemma SMOTE_scale_two_adds_two :
  minority_count five_labels = 2%Z /\
  exists features' labels',
    balance_features_labels index_neighbors first_pick half_step
      five_rows five_labels 2 "SMOTE" = Ok (Some (features', labels')) /\
    nrows features' = (nrows five_rows + 2)%nat /\
    labels' = (five_labels ++ [1; 1])%Z /\
    nrows features' <> (nrows five_rows + 2 * 2)%nat.
Proof.
  split; [reflexivity|].
  eexists. eexists. split; [reflexivity|].
  split; [reflexivity|]. split; [reflexivity|]. discriminate.
Qed.

Lemma minority_label_rule_witness :
  ((count_label 0 [0; 1; 1]%Z < count_label 1 [0; 1; 1]%Z)%Z /\
   minority_label [0; 1; 1]%Z = 0%Z) /\
  ((count_label 1 [0; 0; 1]%Z < count_label 0 [0; 0; 1]%Z)%Z /\
   minority_label [0; 0; 1]%Z = 1%Z) /\
  (count_label 0 [0; 1]%Z = count_label 1 [0; 1]%Z /\
   minority_label [0; 1]%Z = 1%Z).
Proof.
  assert (H1 : (count_label 0 [0; 1; 1]%Z < count_label 1 [0; 1; 1]%Z)%Z)
    by reflexivity.
  assert (H2 : (count_label 1 [0; 0; 1]%Z < count_label 0 [0; 0; 1]%Z)%Z)
    by reflexivity.
  assert (H3 : count_label 0 [0; 1]%Z = count_label 1 [0; 1]%Z)
    by reflexivity.
  split; [split; [exact H1|]|split; [split; [exact H2|]|split; [exact H3|]]].
  - exact (proj1 (minority_label_rule [0; 1; 1]%Z) H1).
  - exact (proj1 (proj2 (minority_label_rule [0; 0; 1]%Z)) H2).
  - exact (proj2 (proj2 (minority_label_rule [0; 1]%Z)) H3).
Defined.


(** The float32 constant of line 62 is the rounded quotient of 1 by
    10000. *)
Lemma f32_epsilon_nearest : f32_div f32_one (f32_of_Z 10000) = f32_epsilon.
Proof. reflexivity. Qed.

(** A finite prototype far enough for the squared norm to overflow: the
    distance is infinite and the entry is NaN. *)
Lemma overflowing_distance_similarity_nan :
  f32_finite (f32_of_Z (10 ^ 20)) = true /\
  f32_distance [f32_zero] [f32_of_Z (10 ^ 20)] = S754_infinity false /\
  forall ln_rounded, f32_similarity ln_rounded (S754_infinity false) = S754_nan.
Proof.
  split; [reflexivity|]. split; [reflexivity|].
  intros ln_rounded. reflexivity.
Qed.


(** ** Encoders and construction *)

Section ModelProperties.

Context {L : Library}.

Lemma GCN_loop_unknown_activation (activation : string)
    (convs : list GCNConv) (m : matrix) (e : edges) :
  activation <> "relu" -> activation <> "leaky_relu" -> activation <> "gelu" ->
  GCN_loop activation convs m e = Ok m.
Proof.
  intros H1 H2 H3.
  apply String.eqb_neq in H1. apply String.eqb_neq in H2.
  apply String.eqb_neq in H3.
  induction convs as [|conv rest IH]; simpl; [reflexivity|].
  rewrite H1, H2, H3. simpl. exact IH.
Qed.

Lemma GAT_loop_unknown_activation (activation : string)
    (gats : list GATConv) (m : matrix) (e : edges) (w : world) :
  activation <> "relu" -> activation <> "leaky_relu" -> activation <> "gelu" ->
  GAT_loop activation gats m e w = (Ok m, w).
Proof.
  intros H1 H2 H3.
  apply String.eqb_neq in H1. apply String.eqb_neq in H2.
  apply String.eqb_neq in H3.
  induction gats as [|gat rest IH]; simpl; [reflexivity|].
  rewrite H1, H2, H3. unfold mbind, ret. exact IH.
Qed.

(** C7, what the code does.  With an activation name outside relu,
    leaky_relu and gelu, the forward pass of the GCN and of the GAT
    encoder calls none of its layers: no branch of the chain is taken,
    and the node feature matrix of the batch is returned as it came in,
    at its input width. *)
Theorem unknown_activation_skips_layers (activation : string)
    (data : graph edges) (w : world) :
  activation <> "relu" -> activation <> "leaky_relu" -> activation <> "gelu" ->
  (forall convs,
      MultiLayerGCN_forward (mkGCN activation convs) data w
      = (Ok (x data), w)) /\
  (forall gats,
      MultiLayerGAT_forward (mkGAT activation gats) data w
      = (Ok (x data), w)).
Proof.
  intros H1 H2 H3. split.
  - intros convs. unfold MultiLayerGCN_forward, lift. simpl.
    rewrite GCN_loop_unknown_activation by assumption. reflexivity.
  - intros gats. unfold MultiLayerGAT_forward. simpl.
    apply GAT_loop_unknown_activation; assumption.
Qed.

(** C8.  With an encoder tag outside gcn, gat and gtc the constructor
    raises [ValueError] at once: the world it leaves is the world it
    found, so no layer, prototype bank or readout was allocated and
    nothing was drawn from the generator. *)
Theorem unsupported_GNN_type_raises (c : config) (w : world) :
  GNN_type c <> "gcn" -> GNN_type c <> "gat" -> GNN_type c <> "gtc" ->
  SLADGNN_init c w = (Raise (ValueError "not supportive gnn."), w).
Proof.
  intros H1 H2 H3.
  apply String.eqb_neq in H1. apply String.eqb_neq in H2.
  apply String.eqb_neq in H3.
  unfold SLADGNN_init. rewrite H1, H2, H3. reflexivity.
Qed.

Ltac run_step H :=
  match type of H with
  | context [match ?m ?w with _ => _ end] =>
      let r := fresh "r" in
      let w' := fresh "w" in
      let E := fresh "E" in
      destruct (m w) as [r w'] eqn:E; destruct r; [|discriminate H]
  end.

Lemma SLADGNN_init_readout (c : config) (w w1 : world) (m : SLADGNN) :
  SLADGNN_init c w = (Ok m, w1) ->
  exists w0,
    MLPReadout_init (mlp_input_dim c) (mlp_output_dim c)
      default_dropout default_n_layers w0 = (Ok (mlp m), w1).
Proof.
  unfold SLADGNN_init. intros H.
  destruct (String.eqb (GNN_type c) "gcn");
    [|destruct (String.eqb (GNN_type c) "gat");
      [|destruct (String.eqb (GNN_type c) "gtc"); [|discriminate H]]];
    unfold mbind at 1 in H; run_step H;
    unfold mbind at 1 in H; run_step H;
    unfold mbind at 1 in H; run_step H;
    unfold mbind at 1 in H; run_step H;
    unfold ret in H; inversion H; subst; simpl; eexists; eassumption.
Qed.

(** C10.  Two configurations that differ at most in [mlp_hidden_dim]
    construct the same model from the same world: the readout is the one
    built from [mlp_input_dim] and [mlp_output_dim] alone, and every
    forward call on the two models has the same outcome. *)
Theorem mlp_hidden_dim_unused (c1 c2 : config) (w : world) :
  same_but_mlp_hidden_dim c1 c2 ->
  SLADGNN_init c1 w = SLADGNN_init c2 w /\
  (forall m1 m2 w1 w2,
      SLADGNN_init c1 w = (Ok m1, w1) ->
      SLADGNN_init c2 w = (Ok m2, w2) ->
      (exists w0,
          MLPReadout_init (mlp_input_dim c1) (mlp_output_dim c1)
            default_dropout default_n_layers w0 = (Ok (mlp m1), w1)) /\
      (exists w0,
          MLPReadout_init (mlp_input_dim c2) (mlp_output_dim c2)
            default_dropout default_n_layers w0 = (Ok (mlp m2), w2)) /\
      mlp m1 = mlp m2 /\
      (forall (O : Type) (data : graph edges) (mode : string) (s : Z)
              (sample_method : string) (output : O) (w' : world),
          SLADGNN_forward m1 data mode s sample_method output w'
          = SLADGNN_forward m2 data mode s sample_method output w')).
Proof.
  intros Hsame.
  assert (Heq : SLADGNN_init c1 w = SLADGNN_init c2 w).
  { destruct c1, c2. unfold same_but_mlp_hidden_dim in Hsame. simpl in Hsame.
    destruct Hsame as (? & ? & ? & ? & ? & ? & ? & ? & ? & ?). subst.
    reflexivity. }
  split; [exact Heq|].
  intros m1 m2 w1 w2 H1 H2.
  split; [exact (SLADGNN_init_readout c1 w w1 m1 H1)|].
  split; [exact (SLADGNN_init_readout c2 w w2 m2 H2)|].
  rewrite Heq, H2 in H1. inversion H1; subst.
  split; reflexivity.
Qed.

End ModelProperties.

(** *** Instances on graphs without edges *)

(** The scenario configuration allocates its two convolutions, the
    prototype bank and the two linear layers of the readout, in that
    order. *)
Example scenario_allocations :
  allocated (snd (SLADGNN_init (L := edgeless) scenario_config fresh_world))
  = [A_GCNConv 8 16; A_GCNConv 16 16; A_randn [2; 3; 16]%nat;
     A_Linear 6 3; A_Linear 3 1].
Proof. reflexivity. Qed.

Lemma unknown_activation_skips_layers_witness :
  exists g w,
    MultiLayerGCN_init (L := edgeless) 8 [16; 16]%nat "tanh" fresh_world
    = (Ok g, w) /\
    length (conv_layers g) = 2%nat /\
    MultiLayerGCN_forward g two_nodes w = (Ok (x two_nodes), w) /\
    ncols (x two_nodes) = 8%nat /\
    (exists h, GCN_loop "relu" (conv_layers g) (x two_nodes) tt = Ok h /\
               ncols h = 16%nat).
Proof.
  eexists. eexists. split; [reflexivity|]. split; [reflexivity|].
  split.
  - refine (proj1 (unknown_activation_skips_layers (L := edgeless)
                     "tanh" two_nodes _ _ _ _) _); discriminate.
  - split; [reflexivity|]. eexists. split; reflexivity.
Defined.

Lemma unsupported_GNN_type_raises_witness :
  SLADGNN_init (L := edgeless) sage_config fresh_world
  = (Raise (ValueError "not supportive gnn."), fresh_world) /\
  allocated (snd (SLADGNN_init (L := edgeless) sage_config fresh_world)) = [].
Proof.
  assert (H : SLADGNN_init (L := edgeless) sage_config fresh_world
              = (Raise (ValueError "not supportive gnn."), fresh_world)).
  { apply (unsupported_GNN_type_raises (L := edgeless)); discriminate. }
  split; [exact H|]. rewrite H. reflexivity.
Defined.

Lemma mlp_hidden_dim_unused_witness :
  SLADGNN_init (L := edgeless) scenario_config fresh_world
  = SLADGNN_init (L := edgeless)
      (mkConfig 1 (1 / 5)%R "relu" "gcn" 8 [16; 16]%nat 2 3 6 7 1) fresh_world.
Proof.
  apply (mlp_hidden_dim_unused (L := edgeless)).
  unfold same_but_mlp_hidden_dim. simpl. repeat split; reflexivity.
Defined.

(** ** The forward pass *)

Lemma squeeze_single_column (m : matrix) :
  ncols m = 1%nat ->
  length (elements (squeeze m)) = nrows m /\
  (nrows m <> 1%nat -> squeeze m = Vector (map (fun r => hd 0%R r) (rows m))) /\
  (nrows m = 1%nat -> rank (squeeze m) = 0%nat).
Proof.
  intros Hc. unfold squeeze. rewrite Hc. cbn [Nat.eqb].
  destruct (Nat.eqb_spec (nrows m) 1) as [E|E]; cbn [elements rank length].
  - split; [symmetry; exact E|]. split; [intros H; contradiction|reflexivity].
  - split; [apply length_map|]. split; [reflexivity|intros H; contradiction].
Qed.

Lemma gather_rows_length (rs : list vec) (idx : list nat) (out : list vec) :
  gather_rows rs idx = Ok out -> length out = length idx.
Proof.
  revert out. induction idx as [|i rest IH]; simpl; intros out H.
  - inversion H. reflexivity.
  - destruct (nth_error rs i); [|discriminate H].
    destruct (gather_rows rs rest) as [tl|e]; [|discriminate H].
    simpl in H. inversion H. simpl. f_equal. apply IH. reflexivity.
Qed.

Lemma fit_resample_shape (kn : list vec -> nat -> list (list nat))
    (ri : nat -> nat -> nat) (un : nat -> R)
    (sm : SMOTE) (X X' : matrix) (l l' : list Z) :
  fit_resample kn ri un sm X l = Ok (X', l') ->
  ncols X' = ncols X /\ (nrows X = length l -> nrows X' = length l').
Proof.
  unfold fit_resample. intros H.
  destruct (negb (nrows X =? length l)%nat); [discriminate H|].
  destruct (ncols X =? 0)%nat; [discriminate H|].
  destruct (single_class l); [discriminate H|].
  destruct (count_label (strategy_class sm) l =? 0)%Z; [discriminate H|].
  destruct (strategy_count sm <? count_label (strategy_class sm) l)%Z;
    [discriminate H|].
  destruct (strategy_count sm - count_label (strategy_class sm) l =? 0)%Z.
  - inversion H; subst. split; [reflexivity|intros E; exact E].
  - destruct (count_label (strategy_class sm) l <? k_neighbors sm + 1)%Z;
      [discriminate H|].
    inversion H; subst. split; [reflexivity|intros E].
    unfold nrows, cat_rows, make_samples. cbn [rows].
    rewrite !length_app, length_map, length_seq, repeat_length.
    unfold nrows in E. rewrite E. reflexivity.
Qed.

Lemma balance_shape (kn : list vec -> nat -> list (list nat))
    (ri : nat -> nat -> nat) (un : nat -> R)
    (features features' : matrix) (labels labels' : list Z) (s : Z)
    (sample_method : string) :
  balance_features_labels kn ri un features labels s sample_method
  = Ok (Some (features', labels')) ->
  nrows features = length labels ->
  ncols features' = ncols features /\ nrows features' = length labels'.
Proof.
  unfold balance_features_labels. intros H Hrows.
  destruct ((Z.of_nat (length (where_label (minority_label labels) labels)) <=? 1)%Z
            || (s =? 0)%Z)%bool.
  { inversion H; subst. split; [reflexivity|exact Hrows]. }
  destruct (String.eqb sample_method "SMOTE").
  { destruct (fit_resample kn ri un _ features labels) as [[X' l']|e] eqn:E;
      [|discriminate H].
    cbn [rbind] in H. inversion H; subst.
    destruct (fit_resample_shape _ _ _ _ _ _ _ _ E) as [Hc Hr].
    split; [exact Hc|exact (Hr Hrows)]. }
  destruct (String.eqb sample_method "copy"); [|discriminate H].
  unfold tensor_repeat, ones_times in H.
  destruct (Z.ltb_spec s 0) as [Hs|Hs]; [discriminate H|].
  cbn [rbind] in H.
  destruct (gather_rows (rows features) _) as [sel|e] eqn:E; [|discriminate H].
  cbn [rbind] in H.
  destruct (Z.of_nat (length (where_label (minority_label labels) labels)) * s <? 0)%Z;
    [discriminate H|].
  cbn [rbind] in H. inversion H; subst.
  split; [reflexivity|].
  unfold nrows, cat_rows. cbn [rows].
  rewrite !length_app, length_map, repeat_length.
  rewrite (gather_rows_length _ _ _ E), length_concat_repeat.
  unfold nrows in Hrows. rewrite Hrows. f_equal.
  rewrite Z2Nat.inj_mul, Nat2Z.id by lia. apply Nat.mul_comm.
Qed.

Lemma calculate_similarity_shape (node_embedding prototypes : matrix) :
  ncols prototypes = ncols node_embedding ->
  exists S,
    calculate_similarity node_embedding prototypes = Ok S /\
    ncols S = nrows prototypes /\ nrows S = nrows node_embedding.
Proof.
  intros H. unfold calculate_similarity.
  rewrite H, Nat.eqb_refl. cbn [orb negb].
  eexists. split; [reflexivity|]. split; [reflexivity|].
  unfold nrows. cbn [rows]. apply length_map.
Qed.

Lemma Linear_forward_shape (lin : Linear) (m : matrix) :
  ncols m = in_features lin ->
  exists out,
    Linear_forward lin m = Ok out /\
    ncols out = out_features lin /\ nrows out = nrows m.
Proof.
  intros H. unfold Linear_forward. rewrite H, Nat.eqb_refl.
  eexists. split; [reflexivity|]. split; [reflexivity|].
  unfold nrows. cbn [rows]. apply length_map.
Qed.

Lemma balance_copy_runs (kn : list vec -> nat -> list (list nat))
    (ri : nat -> nat -> nat) (un : nat -> R)
    (features : matrix) (labels : list Z) (s : Z) :
  nrows features = length labels ->
  (2 <= minority_count labels)%Z -> (1 <= s)%Z ->
  exists features' labels',
    balance_features_labels kn ri un features labels s "copy"
    = Ok (Some (features', labels')).
Proof.
  intros Hrows Hm Hs. unfold balance_features_labels.
  rewrite (guard_passes labels s Hm Hs).
  change (String.eqb "copy" "SMOTE") with false.
  change (String.eqb "copy" "copy") with true. cbv iota.
  rewrite length_minority_indices.
  unfold tensor_repeat, ones_times.
  replace (s <? 0)%Z with false by (symmetry; apply Z.ltb_ge; lia).
  replace (minority_count labels * s <? 0)%Z with false
    by (symmetry; apply Z.ltb_ge; nia).
  cbn [rbind].
  rewrite gather_rows_ok.
  - cbn [rbind]. eexists. eexists. reflexivity.
  - apply Forall_concat_repeat.
    eapply Forall_impl; [|apply (where_from_bound _ labels 0)].
    simpl. intros j Hj. unfold nrows in Hrows. lia.
Qed.

Lemma balance_copy_labels_length (kn : list vec -> nat -> list (list nat))
    (ri : nat -> nat -> nat) (un : nat -> R)
    (features features' : matrix) (labels labels' : list Z) (s : Z) :
  balance_features_labels kn ri un features labels s "copy"
  = Ok (Some (features', labels')) ->
  (2 <= minority_count labels)%Z -> (1 <= s)%Z ->
  Z.of_nat (length labels')
  = (Z.of_nat (length labels) + minority_count labels * s)%Z.
Proof.
  unfold balance_features_labels. intros H Hm Hs.
  rewrite (guard_passes labels s Hm Hs) in H.
  change (String.eqb "copy" "SMOTE") with false in H.
  change (String.eqb "copy" "copy") with true in H. cbv iota in H.
  rewrite length_minority_indices in H.
  destruct (tensor_repeat _ s) as [idx|e]; [|discriminate H].
  cbn [rbind] in H.
  destruct (gather_rows (rows features) idx) as [sel|e]; [|discriminate H].
  cbn [rbind] in H. unfold ones_times in H.
  replace (minority_count labels * s <? 0)%Z with false in H
    by (symmetry; apply Z.ltb_ge; nia).
  cbn [rbind] in H. inversion H; subst.
  rewrite length_app, length_map, repeat_length. nia.
Qed.

Lemma squeeze_one_by_one (m : matrix) :
  ncols m = 1%nat -> nrows m = 1%nat -> squeeze m = Scalar (entry m 0 0).
Proof.
  intros Hc Hr. unfold squeeze. rewrite Hc, Hr. reflexivity.
Qed.

Lemma rate_refused_false (p : R) :
  (0 <= p <= 1)%R -> rate_refused p = false.
Proof.
  intros [H0 H1]. unfold rate_refused.
  destruct (Rlt_dec p 0) as [H|_]; [lra|].
  destruct (Rlt_dec 1 p) as [H|_]; [lra|reflexivity].
Qed.

Lemma rate_refused_true (p : R) :
  (p < 0)%R \/ (1 < p)%R -> rate_refused p = true.
Proof.
  intros H. unfold rate_refused.
  destruct (Rlt_dec p 0) as [_|H0]; [reflexivity|].
  destruct (Rlt_dec 1 p) as [_|H1]; [reflexivity|lra].
Qed.

Lemma default_dropout_in_range : (0 <= default_dropout <= 1)%R.
Proof. unfold default_dropout. lra. Qed.

Lemma readout_width_in_range (self : MLPReadout) (width : nat) :
  (0 <= dropout self <= 1)%R ->
  readout_width self width = layers_width self width.
Proof.
  intros H. unfold readout_width. rewrite (rate_refused_false _ H).
  rewrite andb_false_r. reflexivity.
Qed.

Lemma readout_width_inv (self : MLPReadout) (width o : nat) :
  readout_width self width = Some o ->
  (rate_refused (dropout self) = false \/ n_layers self = 0%nat) /\
  layers_width self width = Some o.
Proof.
  unfold readout_width. intros H.
  destruct (Nat.eqb_spec (n_layers self) 0) as [E|E]; cbn [negb andb] in H.
  - split; [right; exact E|exact H].
  - destruct (rate_refused (dropout self)); [discriminate H|].
    split; [left; reflexivity|exact H].
Qed.

Section ForwardProperties.

Context {L : Library}.

Lemma mbind_ok {A B} (m : M A) (k : A -> M B) (w w' : world) (a : A) :
  m w = (Ok a, w') -> mbind m k w = k a w'.
Proof. intros H. unfold mbind. rewrite H. reflexivity. Qed.

Lemma mapM_total {A B} (f : A -> M B) (l : list A) :
  (forall a w, exists b w', f a w = (Ok b, w')) ->
  forall w, exists bs w', mapM f l w = (Ok bs, w') /\ length bs = length l.
Proof.
  intros Hf. induction l as [|a rest IH]; intros w; simpl.
  - exists [], w. split; reflexivity.
  - destruct (Hf a w) as [b [w1 Hb]].
    destruct (IH w1) as [bs [w2 [Hbs Hlen]]].
    exists (b :: bs), w2.
    rewrite (mbind_ok _ _ _ _ _ Hb), (mbind_ok _ _ _ _ _ Hbs).
    split; [reflexivity|]. simpl. f_equal. exact Hlen.
Qed.

Lemma dropout_entry_total (p a : R) (w : world) :
  exists b w', dropout_entry p a w = (Ok b, w').
Proof.
  unfold dropout_entry, mbind, draw, ret.
  destruct (bernoulli p (gen w)) as [keep g]. eexists. eexists. reflexivity.
Qed.

Lemma F_dropout_total (m : matrix) (p : R) (training : bool) (w : world) :
  rate_refused p = false ->
  exists out w',
    F_dropout m p training w = (Ok out, w') /\
    ncols out = ncols m /\ nrows out = nrows m.
Proof.
  intros Hp. unfold F_dropout. rewrite Hp. destruct training.
  - destruct (mapM_total (mapM (dropout_entry p)) (rows m)) with (w := w)
      as [rs [w' [Hrs Hlen]]].
    { intros r w0.
      destruct (mapM_total (dropout_entry p) r (dropout_entry_total p) w0)
        as [bs [w1 [Hbs _]]].
      exists bs, w1. exact Hbs. }
    exists (Mat (ncols m) rs), w'.
    rewrite (mbind_ok _ _ _ _ _ Hrs). repeat split. exact Hlen.
  - exists m, w. repeat split.
Qed.

Lemma readout_loop_total (self : MLPReadout) (ns : list nat) :
  rate_refused (dropout self) = false \/ ns = [] ->
  forall (m : matrix) (o : nat) (w : world),
    loop_width (fc_layers self) ns (ncols m) = Some o ->
    exists out w',
      readout_loop self ns m w = (Ok out, w') /\
      ncols out = o /\ nrows out = nrows m.
Proof.
  induction ns as [|n rest IH]; intros Hrate m o w H; simpl in H.
  - inversion H. exists m, w. repeat split.
  - destruct Hrate as [Hrate|Hrate]; [|discriminate Hrate].
    destruct (nth_error (fc_layers self) n) as [fc|] eqn:Efc; [|discriminate H].
    destruct (Nat.eqb_spec (ncols m) (in_features fc)) as [Ew|Ew];
      [|discriminate H].
    destruct (F_dropout_total m (dropout self) (training self) w Hrate)
      as [m1 [w1 [Hdrop [Hc1 Hr1]]]].
    destruct (Linear_forward_shape fc m1) as [m2 [Hlin [Hc2 Hr2]]];
      [congruence|].
    destruct (IH (or_introl Hrate) (map_matrix gelu m2) o w1)
      as [out [w' [Hloop [Hco Hro]]]].
    { cbn [map_matrix ncols]. rewrite Hc2. exact H. }
    exists out, w'. cbn [readout_loop].
    rewrite (mbind_ok _ _ _ _ _ Hdrop).
    unfold index. rewrite Efc.
    unfold mbind at 1. unfold lift at 1.
    unfold mbind at 1. unfold lift at 1. rewrite Hlin.
    split; [exact Hloop|]. split; [exact Hco|].
    rewrite Hro. unfold nrows, map_matrix. cbn [rows].
    rewrite length_map. exact (eq_trans Hr2 Hr1).
Qed.

Lemma MLPReadout_forward_total (self : MLPReadout) (m : matrix) (o : nat)
    (w : world) :
  readout_width self (ncols m) = Some o ->
  exists out w',
    MLPReadout_forward self m w = (Ok out, w') /\
    ncols out = o /\ nrows out = nrows m.
Proof.
  intros H0. destruct (readout_width_inv self (ncols m) o H0) as [Hrate H].
  unfold layers_width in H.
  destruct (loop_width (fc_layers self) (seq 0 (n_layers self)) (ncols m))
    as [width|] eqn:Eloop; [|discriminate H].
  destruct (nth_error (fc_layers self) (n_layers self)) as [fc|] eqn:Efc;
    [|discriminate H].
  destruct (Nat.eqb_spec width (in_features fc)) as [Ew|Ew]; [|discriminate H].
  inversion H; subst o.
  assert (Hrate' : rate_refused (dropout self) = false
                   \/ seq 0 (n_layers self) = []).
  { destruct Hrate as [Hr|Hr]; [left; exact Hr|right; rewrite Hr; reflexivity]. }
  destruct (readout_loop_total self _ Hrate' m width w Eloop)
    as [m1 [w1 [Hloop [Hc1 Hr1]]]].
  destruct (Linear_forward_shape fc m1) as [m2 [Hlin [Hc2 Hr2]]];
    [congruence|].
  exists m2, w1. unfold MLPReadout_forward.
  rewrite (mbind_ok _ _ _ _ _ Hloop).
  unfold index. rewrite Efc.
  unfold mbind, lift. rewrite Hlin.
  split; [reflexivity|]. split; [exact Hc2|exact (eq_trans Hr2 Hr1)].
Qed.

Lemma forward_scores (self : SLADGNN) (data : graph edges)
    (mode : string) (s : Z) (sample_method : string)
    (O : Type) (output : O) (w w1 : world)
    (emb xb : matrix) (yb : list Z) :
  GNN_forward (GNN self) data w = (Ok emb, w1) ->
  nrows emb = length (y data) ->
  (if String.eqb mode "train"
   then balance_features_labels smote_kneighbors smote_randint smote_uniform
          emb (y data) s sample_method = Ok (Some (xb, yb))
   else (xb, yb) = (emb, y data)) ->
  dim2 (prototype_layer self) = ncols emb -> ncols emb <> 0%nat ->
  readout_width (mlp self) (length (concat (data3 (prototype_layer self))))
  = Some 1%nat ->
  exists p w2,
    SLADGNN_forward self data mode s sample_method output w
    = (Ok (p, map IZR yb), w2) /\
    length (elements p) = length yb /\
    (length yb <> 1%nat -> exists pv, p = Vector pv /\ length pv = length yb) /\
    (length yb = 1%nat -> exists a, p = Scalar a).
Proof.
  intros Henc Hrows Hbal Hdim Hnz Hmlp.
  assert (Hxy :
            (if String.eqb mode "train" then
               mbind (lift (balance_features_labels
                              smote_kneighbors smote_randint smote_uniform
                              emb (y data) s sample_method))
                     (fun r => lift (unpack_pair r))
             else ret (emb, y data)) w1 = (Ok (xb, yb), w1) /\
            ncols xb = ncols emb /\ nrows xb = length yb).
  { destruct (String.eqb mode "train").
    - unfold mbind, lift. rewrite Hbal. split; [reflexivity|].
      eapply balance_shape; eassumption.
    - inversion Hbal; subst. split; [reflexivity|].
      split; [reflexivity|exact Hrows]. }
  destruct Hxy as [Hxy [Hcb Hrb]].
  assert (Hresh : reshape_last (prototype_layer self)
                  = Ok (Mat (dim2 (prototype_layer self))
                            (concat (data3 (prototype_layer self))))).
  { unfold reshape_last.
    destruct (Nat.eqb_spec (dim2 (prototype_layer self)) 0) as [E|E];
      [congruence|reflexivity]. }
  destruct (calculate_similarity_shape xb
              (Mat (dim2 (prototype_layer self))
                   (concat (data3 (prototype_layer self)))))
    as [S [Hsim [HcS HrS]]]; [cbn [ncols]; congruence|].
  destruct (MLPReadout_forward_total (mlp self) S 1 w1)
    as [out [w2 [Hout [Hco Hro]]]]; [rewrite HcS; exact Hmlp|].
  assert (Hn : nrows (map_matrix sigmoid out) = length yb).
  { unfold nrows, map_matrix. cbn [rows]. rewrite length_map.
    exact (eq_trans Hro (eq_trans HrS Hrb)). }
  destruct (squeeze_single_column (map_matrix sigmoid out) Hco)
    as [Hlen [Hvec Hscalar]].
  rewrite Hn in Hlen, Hvec, Hscalar.
  exists (squeeze (map_matrix sigmoid out)), w2.
  split.
  { unfold SLADGNN_forward.
    rewrite (mbind_ok _ _ _ _ _ Henc), (mbind_ok _ _ _ _ _ Hxy).
    unfold mbind at 1. unfold lift at 1. rewrite Hresh.
    unfold mbind at 1. unfold lift at 1. cbn [fst]. rewrite Hsim.
    rewrite (mbind_ok _ _ _ _ _ Hout). reflexivity. }
  split; [exact Hlen|].
  split.
  - intros Hne. eexists. split; [exact (Hvec Hne)|].
    rewrite length_map. exact Hn.
  - intros H1. eexists. apply squeeze_one_by_one; [exact Hco|].
    rewrite Hn. exact H1.
Qed.

(** The forward pass on a well-shaped batch.  Take a forward call whose
    encoder returns one embedding row per label, whose prototype bank is
    as wide as the embeddings, and whose readout accepts one similarity
    per prototype and ends in width one.  Whenever the second step yields
    a pair (always outside train mode), the call returns probabilities and
    float labels with one probability per returned label; the
    probabilities are a 1-D vector as long as the labels except when
    exactly one row was scored.  Outside train mode the labels returned
    are the input labels cast to float.  In train mode with method copy,
    scale factor 2 and eight zeros and two ones among ten labels, the call
    returns two 1-D vectors of length 14. *)
Lemma forward_returns_pair (self : SLADGNN) (data : graph edges)
    (mode : string) (s : Z) (sample_method : string)
    (O : Type) (output : O) (w w1 : world) (emb : matrix) :
  GNN_forward (GNN self) data w = (Ok emb, w1) ->
  nrows emb = length (y data) ->
  dim2 (prototype_layer self) = ncols emb -> ncols emb <> 0%nat ->
  readout_width (mlp self) (length (concat (data3 (prototype_layer self))))
  = Some 1%nat ->
  (forall xb yb,
      (if String.eqb mode "train"
       then balance_features_labels smote_kneighbors smote_randint
              smote_uniform emb (y data) s sample_method
            = Ok (Some (xb, yb))
       else (xb, yb) = (emb, y data)) ->
      exists p w2,
        SLADGNN_forward self data mode s sample_method output w
        = (Ok (p, map IZR yb), w2) /\
        length (elements p) = length yb /\
        (length yb <> 1%nat ->
         exists pv, p = Vector pv /\ length pv = length yb) /\
        (length yb = 1%nat -> exists a, p = Scalar a)) /\
  (mode <> "train" ->
   exists p w2,
     SLADGNN_forward self data mode s sample_method output w
     = (Ok (p, map IZR (y data)), w2) /\
     length (elements p) = length (y data) /\
     (length (y data) <> 1%nat ->
      exists pv, p = Vector pv /\ length pv = length (y data))) /\
  (mode = "train" -> sample_method = "copy" -> s = 2%Z ->
   count_label 0 (y data) = 8%Z -> count_label 1 (y data) = 2%Z ->
   length (y data) = 10%nat ->
   exists pv yv w2,
     SLADGNN_forward self data mode s sample_method output w
     = (Ok (Vector pv, yv), w2) /\
     length pv = 14%nat /\ length yv = 14%nat).
Proof.
  intros Henc Hrows Hdim Hnz Hmlp.
  split; [|split].
  - intros xb yb Hbal.
    exact (forward_scores self data mode s sample_method O output w w1
             emb xb yb Henc Hrows Hbal Hdim Hnz Hmlp).
  - intros Hmode.
    destruct (forward_scores self data mode s sample_method O output w w1
                emb emb (y data) Henc Hrows) as [p [w2 [Hrun [Hl [Hv _]]]]];
      try assumption.
    { apply String.eqb_neq in Hmode. rewrite Hmode. reflexivity. }
    exists p, w2. repeat split; assumption.
  - intros Hmode Hmeth Hs H0 H1 H10. subst mode sample_method s.
    assert (Hmc : minority_count (y data) = 2%Z).
    { unfold minority_count, minority_label. rewrite H0, H1. exact H1. }
    destruct (balance_copy_runs smote_kneighbors smote_randint smote_uniform
                emb (y data) 2 Hrows) as [xb [yb Hbal]]; [lia|lia|].
    assert (H14 : length yb = 14%nat).
    { pose proof (balance_copy_labels_length _ _ _ _ _ _ _ _ Hbal) as Hl.
      rewrite Hmc in Hl. lia. }
    destruct (forward_scores self data "train" 2 "copy" O output w w1
                emb xb yb Henc Hrows) as [p [w2 [Hrun [_ [Hv _]]]]];
      try assumption.
    destruct Hv as [pv [Hp Hpv]]; [lia|]. subst p.
    exists pv, (map IZR yb), w2. split; [exact Hrun|].
    split; [lia|]. rewrite length_map; exact H14.
Qed.

(** C1, where the code departs from it.  Take a forward call whose
    encoder returns one embedding row per label, whose prototype bank is
    as wide as the embeddings, and whose readout accepts one similarity
    per prototype and ends in width one.  When exactly one row is scored
    (a batch of one node outside train mode, for instance) the bare
    [squeeze()] of line 208 drops the node axis together with the readout
    axis: the probabilities returned are a 0-dimensional scalar, not a 1-D
    vector, next to a 1-D label vector of length one. *)
Theorem forward_single_row_returns_scalar (self : SLADGNN)
    (data : graph edges) (mode : string) (s : Z) (sample_method : string)
    (O : Type) (output : O) (w w1 : world)
    (emb xb : matrix) (yb : list Z) :
  GNN_forward (GNN self) data w = (Ok emb, w1) ->
  nrows emb = length (y data) ->
  (if String.eqb mode "train"
   then balance_features_labels smote_kneighbors smote_randint smote_uniform
          emb (y data) s sample_method = Ok (Some (xb, yb))
   else (xb, yb) = (emb, y data)) ->
  dim2 (prototype_layer self) = ncols emb -> ncols emb <> 0%nat ->
  readout_width (mlp self) (length (concat (data3 (prototype_layer self))))
  = Some 1%nat ->
  length yb = 1%nat ->
  exists a w2,
    SLADGNN_forward self data mode s sample_method output w
    = (Ok (Scalar a, map IZR yb), w2) /\
    rank (Scalar a) = 0%nat /\
    length (map IZR yb) = 1%nat.
Proof.
  intros Henc Hrows Hbal Hdim Hnz Hmlp H1.
  destruct (forward_scores self data mode s sample_method O output w w1
              emb xb yb Henc Hrows Hbal Hdim Hnz Hmlp)
    as [p [w2 [Hrun [_ [_ Hs]]]]].
  destruct (Hs H1) as [a Hp]. subst p.
  exists a, w2. split; [exact Hrun|]. split; [reflexivity|].
  rewrite length_map. exact H1.
Qed.

End ForwardProperties.

(** *** Instances of the forward pass *)

Lemma small_model_readout_width :
  readout_width (mlp small_model)
    (length (concat (data3 (prototype_layer small_model)))) = Some 1%nat.
Proof.
  rewrite readout_width_in_range; [reflexivity|].
  change (dropout (mlp small_model)) with (1 / 10)%R. lra.
Qed.

Lemma forward_returns_pair_example :
  (exists pv yv w2,
      SLADGNN_forward (L := edgeless) small_model ten_nodes "train" 2 "copy"
        tt fresh_world = (Ok (Vector pv, yv), w2) /\
      length pv = 14%nat /\ length yv = 14%nat) /\
  (exists p w2,
      SLADGNN_forward (L := edgeless) small_model ten_nodes "eval" 2 "copy"
        tt fresh_world = (Ok (p, map IZR (y ten_nodes)), w2) /\
      length (elements p) = 10%nat).
Proof.
  pose (emb := match fst (GNN_forward (L := edgeless) (GNN small_model)
                            ten_nodes fresh_world) with
               | Ok m => m
               | Raise _ => Mat 0 []
               end).
  assert (Henc : GNN_forward (L := edgeless) (GNN small_model) ten_nodes
                   fresh_world = (Ok emb, fresh_world)) by reflexivity.
  assert (Hrows : nrows emb = length (y ten_nodes)) by reflexivity.
  assert (Hdim : dim2 (prototype_layer small_model) = ncols emb)
    by reflexivity.
  assert (Hnz : ncols emb <> 0%nat) by (change (2 <> 0)%nat; discriminate).
  pose proof small_model_readout_width as Hmlp.
  split.
  - destruct (forward_returns_pair (L := edgeless) small_model ten_nodes
                "train" 2 "copy" unit tt fresh_world fresh_world emb
                Henc Hrows Hdim Hnz Hmlp) as [_ [_ Htrain]].
    destruct Htrain as [pv [yv [w2 [Hrun [Hpv Hyv]]]]]; try reflexivity.
    exists pv, yv, w2. split; [exact Hrun|]. split; [exact Hpv|exact Hyv].
  - destruct (forward_returns_pair (L := edgeless) small_model ten_nodes
                "eval" 2 "copy" unit tt fresh_world fresh_world emb
                Henc Hrows Hdim Hnz Hmlp) as [_ [Heval _]].
    destruct Heval as [p [w2 [Hrun [Hlen _]]]]; [discriminate|].
    exists p, w2. split; [exact Hrun|exact Hlen].
Qed.

(** C1 on a batch of one node, in eval mode: the probabilities returned
    are a 0-dimensional scalar, not a 1-D vector as long as the label
    vector (which has length one). *)
Lemma forward_single_row_returns_scalar_witness :
  exists a w2,
    SLADGNN_forward (L := edgeless) small_model one_node "eval" 0 "copy"
      tt fresh_world = (Ok (Scalar a, map IZR (y one_node)), w2) /\
    rank (Scalar a) = 0%nat /\
    length (map IZR (y one_node)) = 1%nat.
Proof.
  pose (emb := match fst (GNN_forward (L := edgeless) (GNN small_model)
                            one_node fresh_world) with
               | Ok m => m
               | Raise _ => Mat 0 []
               end).
  assert (Henc : GNN_forward (L := edgeless) (GNN small_model) one_node
                   fresh_world = (Ok emb, fresh_world)) by reflexivity.
  assert (Hrows : nrows emb = length (y one_node)) by reflexivity.
  assert (Hdim : dim2 (prototype_layer small_model) = ncols emb)
    by reflexivity.
  assert (Hnz : ncols emb <> 0%nat) by (change (2 <> 0)%nat; discriminate).
  assert (Hmlp : readout_width (mlp small_model)
                   (length (concat (data3 (prototype_layer small_model))))
                 = Some 1%nat).
  { rewrite readout_width_in_range; [reflexivity|].
    change (dropout (mlp small_model)) with (1 / 10)%R. lra. }
  exact (forward_single_row_returns_scalar (L := edgeless) small_model
           one_node "eval" 0 "copy" unit tt fresh_world fresh_world
           emb emb (y one_node) Henc Hrows eq_refl Hdim Hnz Hmlp eq_refl).
Defined.

(** * Further properties of the code *)

(** ** The class balancer *)

Lemma count_label_app (v : Z) (a b : list Z) :
  count_label v (a ++ b) = (count_label v a + count_label v b)%Z.
Proof.
  unfold count_label. rewrite filter_app, length_app. lia.
Qed.

Lemma count_label_repeat (v u : Z) (n : nat) :
  count_label v (repeat u n) = if Z.eqb v u then Z.of_nat n else 0%Z.
Proof.
  unfold count_label. induction n as [|n IH]; cbn [repeat filter].
  - destruct (Z.eqb v u); reflexivity.
  - destruct (Z.eqb v u) eqn:E; cbn [length]; lia.
Qed.

Lemma ones_times_repeat (n v : Z) :
  (0 <= n)%Z -> ones_times n v = Ok (repeat v (Z.to_nat n)).
Proof.
  intros Hn. unfold ones_times.
  replace (n <? 0)%Z with false by (symmetry; apply Z.ltb_ge; exact Hn).
  f_equal. rewrite map_repeat. f_equal. apply Z.mul_1_l.
Qed.

Lemma gather_rows_In (rs : list vec) (idx : list nat) (out : list vec) :
  gather_rows rs idx = Ok out -> Forall (fun r => In r rs) out.
Proof.
  revert out. induction idx as [|i rest IH]; simpl; intros out H.
  - inversion H. constructor.
  - destruct (nth_error rs i) as [r|] eqn:E; [|discriminate H].
    destruct (gather_rows rs rest) as [tl|e]; [|discriminate H].
    simpl in H. inversion H. constructor.
    + eapply nth_error_In. exact E.
    + apply IH. reflexivity.
Qed.

Lemma gather_rows_out_of_range (rs : list vec) (idx : list nat) (i : nat) :
  In i idx -> (length rs <= i)%nat ->
  gather_rows rs idx = Raise (IndexError "index out of range").
Proof.
  intros Hin Hi. induction idx as [|j rest IH]; [contradiction|].
  simpl. destruct (nth_error rs j) as [r|] eqn:E; [|reflexivity].
  destruct Hin as [Hj|Hin].
  - subst j. apply nth_error_None in Hi. congruence.
  - rewrite (IH Hin). reflexivity.
Qed.

(** Every way in which the balancer returns a pair. *)
Lemma balance_pair_inv (kn : list vec -> nat -> list (list nat))
    (ri : nat -> nat -> nat) (un : nat -> R)
    (features features' : matrix) (labels labels' : list Z) (s : Z)
    (sample_method : string) :
  balance_features_labels kn ri un features labels s sample_method
  = Ok (Some (features', labels')) ->
  (features' = features /\ labels' = labels /\
   ((minority_count labels <= 1)%Z \/ s = 0%Z)) \/
  (sample_method = "SMOTE" /\ (2 <= minority_count labels)%Z /\ (1 <= s)%Z /\
   nrows features = length labels /\ ncols features <> 0%nat /\
   ncols features' = ncols features /\
   rows features'
   = rows features
       ++ make_samples kn ri un
            (rows_of_class (minority_label labels) (rows features) labels)
            (Z.to_nat (Z.min (minority_count labels - 1) s))
            (Z.to_nat (minority_count labels * (s - 1))) /\
   labels' = labels ++ repeat (minority_label labels)
                         (Z.to_nat (minority_count labels * (s - 1)))) \/
  (sample_method = "copy" /\ (2 <= minority_count labels)%Z /\ (1 <= s)%Z /\
   ncols features' = ncols features /\
   (exists gathered,
       gather_rows (rows features)
         (concat (repeat (minority_indices labels) (Z.to_nat s)))
       = Ok gathered /\
       rows features' = rows features ++ gathered) /\
   labels' = labels ++ repeat (minority_label labels)
                         (Z.to_nat (minority_count labels * s))).
Proof.
  unfold balance_features_labels. rewrite length_minority_indices. intros H.
  destruct (Z.leb_spec (minority_count labels) 1) as [Hm|Hm].
  { cbn [orb] in H. inversion H; subst features' labels'.
    left. repeat split. left. exact Hm. }
  destruct (Z.eqb_spec s 0) as [Hs|Hs].
  { cbn [orb] in H. inversion H; subst features' labels'.
    left. repeat split. right. exact Hs. }
  cbn [orb] in H. right.
  destruct (String.eqb_spec sample_method "SMOTE") as [Esm|Esm].
  - left. unfold fit_resample in H.
    cbn [strategy_class strategy_count k_neighbors] in H.
    destruct (Nat.eqb_spec (nrows features) (length labels)) as [Hr|Hr];
      [|discriminate H].
    cbn [negb] in H.
    destruct (Nat.eqb_spec (ncols features) 0) as [Hc|Hc]; [discriminate H|].
    destruct (single_class labels); [discriminate H|].
    fold (minority_count labels) in H.
    destruct (minority_count labels =? 0)%Z; [discriminate H|].
    destruct (Z.ltb_spec (minority_count labels * s) (minority_count labels))
      as [Hlt|Hge]; [discriminate H|].
    assert (Hs1 : (1 <= s)%Z) by nia.
    assert (Hk : (if (minority_count labels - 1 <? s)%Z
                  then (minority_count labels - 1)%Z else s)
                 = Z.min (minority_count labels - 1) s).
    { destruct (Z.ltb_spec (minority_count labels - 1) s); lia. }
    rewrite Hk in H.
    replace (minority_count labels * s - minority_count labels)%Z
      with (minority_count labels * (s - 1))%Z in H by ring.
    split; [exact Esm|]. split; [lia|]. split; [exact Hs1|].
    split; [exact Hr|]. split; [exact Hc|].
    destruct (Z.eqb_spec (minority_count labels * (s - 1)) 0) as [E|E].
    + cbn [rbind] in H. inversion H; subst features' labels'.
      rewrite E. simpl. rewrite !app_nil_r. repeat split.
    + destruct (minority_count labels <? Z.min (minority_count labels - 1) s + 1)%Z;
        [discriminate H|].
      cbn [rbind] in H. inversion H; subst features' labels'.
      repeat split.
  - right. destruct (String.eqb_spec sample_method "copy") as [Ecp|Ecp];
      [|discriminate H].
    unfold tensor_repeat in H.
    destruct (Z.ltb_spec s 0) as [Hneg|Hpos]; [discriminate H|].
    cbn [rbind] in H.
    destruct (gather_rows (rows features) _) as [sel|e] eqn:E; [|discriminate H].
    cbn [rbind] in H.
    rewrite ones_times_repeat in H by nia.
    cbn [rbind] in H. inversion H; subst features' labels'.
    split; [exact Ecp|]. split; [lia|]. split; [lia|]. split; [reflexivity|].
    split; [|reflexivity].
    exists sel. split; reflexivity.
Qed.

Lemma guard_passes_nonzero (labels : list Z) (s : Z) :
  (2 <= minority_count labels)%Z -> s <> 0%Z ->
  ((Z.of_nat (length (where_label (minority_label labels) labels)) <=? 1)%Z
   || (s =? 0)%Z)%bool = false.
Proof.
  intros Hm Hs. rewrite length_minority_indices.
  apply orb_false_iff. split; [apply Z.leb_gt|apply Z.eqb_neq]; lia.
Qed.

Lemma In_concat_repeat {A} (a : A) (l : list A) (n : nat) :
  In a l -> (0 < n)%nat -> In a (concat (repeat l n)).
Proof.
  intros Hin Hn. destruct n as [|n]; [lia|].
  simpl. apply in_or_app. left. exact Hin.
Qed.

Section BalancerFurther.

Variable kneighbors : list vec -> nat -> list (list nat).
Variable randint : nat -> nat -> nat.
Variable uniform : nat -> R.

(** X1.  Whatever the sampling method and the scale factor, a pair
    returned by the balancer holds the input rows and the input labels,
    unchanged and in order, followed by as many new rows as new labels;
    every new label is the minority label and the width is the input's. *)
Theorem balance_only_appends (features features' : matrix)
    (labels labels' : list Z) (s : Z) (sample_method : string) :
  balance_features_labels kneighbors randint uniform
    features labels s sample_method
  = Ok (Some (features', labels')) ->
  ncols features' = ncols features /\
  exists new_rows new_labels,
    rows features' = rows features ++ new_rows /\
    labels' = labels ++ new_labels /\
    length new_rows = length new_labels /\
    Forall (fun l => l = minority_label labels) new_labels.
Proof.
  intros H. apply balance_pair_inv in H.
  destruct H as [[Hf [Hl _]]|[H|H]].
  - subst. split; [reflexivity|]. exists [], [].
    rewrite !app_nil_r. repeat split. constructor.
  - destruct H as (_ & _ & _ & _ & _ & Hc & Hr & Hl).
    split; [exact Hc|]. eexists. eexists.
    split; [exact Hr|]. split; [exact Hl|]. split.
    + unfold make_samples. rewrite length_map, length_seq, repeat_length.
      reflexivity.
    + apply Forall_forall. intros l Hin. apply repeat_spec in Hin. exact Hin.
  - destruct H as (_ & Hm & Hs & Hc & [gathered [Hg Hr]] & Hl).
    split; [exact Hc|]. exists gathered. eexists.
    split; [exact Hr|]. split; [exact Hl|]. split.
    + rewrite (gather_rows_length _ _ _ Hg), length_concat_repeat, repeat_length.
      unfold minority_indices.
      pose proof (length_minority_indices labels) as Hlen. nia.
    + apply Forall_forall. intros l Hin. apply repeat_spec in Hin. exact Hin.
Qed.

(** X2.  After copy mode with at least two minority members and a scale
    factor [s >= 1], the minority label occurs [minority_count * (s + 1)]
    times and every other label occurs as often as before. *)
Theorem balance_copy_class_counts (features features' : matrix)
    (labels labels' : list Z) (s : Z) :
  balance_features_labels kneighbors randint uniform features labels s "copy"
  = Ok (Some (features', labels')) ->
  (2 <= minority_count labels)%Z -> (1 <= s)%Z ->
  count_label (minority_label labels) labels'
  = (minority_count labels * (s + 1))%Z /\
  (forall v, v <> minority_label labels ->
             count_label v labels' = count_label v labels).
Proof.
  intros H Hm Hs. apply balance_pair_inv in H.
  destruct H as [[_ [_ Hno]]|[H|H]]; [lia|destruct H as [E _]; discriminate E|].
  destruct H as (_ & _ & _ & _ & _ & Hl). subst labels'.
  split.
  - rewrite count_label_app, count_label_repeat, Z.eqb_refl.
    fold (minority_count labels). nia.
  - intros v Hv. rewrite count_label_app, count_label_repeat.
    apply Z.eqb_neq in Hv. rewrite Hv. lia.
Qed.

(** X3.  After SMOTE mode with at least two minority members and a scale
    factor [s >= 1], the minority label occurs exactly
    [minority_count * s] times and every other label occurs as often as
    before. *)
Theorem balance_SMOTE_class_counts (features features' : matrix)
    (labels labels' : list Z) (s : Z) :
  balance_features_labels kneighbors randint uniform features labels s "SMOTE"
  = Ok (Some (features', labels')) ->
  (2 <= minority_count labels)%Z -> (1 <= s)%Z ->
  count_label (minority_label labels) labels'
  = (minority_count labels * s)%Z /\
  (forall v, v <> minority_label labels ->
             count_label v labels' = count_label v labels).
Proof.
  intros H Hm Hs. apply balance_pair_inv in H.
  destruct H as [[_ [_ Hno]]|[H|H]]; [lia| |destruct H as [E _]; discriminate E].
  destruct H as (_ & _ & _ & _ & _ & _ & _ & Hl). subst labels'.
  split.
  - rewrite count_label_app, count_label_repeat, Z.eqb_refl.
    fold (minority_count labels). nia.
  - intros v Hv. rewrite count_label_app, count_label_repeat.
    apply Z.eqb_neq in Hv. rewrite Hv. lia.
Qed.

(** X4.  With scale factor 1, SMOTE mode synthesises nothing: on a
    feature matrix of one row per label and at least one column, with at
    least two minority members, it returns its inputs as they are. *)
Theorem balance_SMOTE_scale_one_unchanged (features : matrix)
    (labels : list Z) :
  nrows features = length labels -> ncols features <> 0%nat ->
  (2 <= minority_count labels)%Z ->
  balance_features_labels kneighbors randint uniform features labels 1 "SMOTE"
  = Ok (Some (features, labels)).
Proof.
  intros Hrows Hcols Hm. unfold balance_features_labels.
  rewrite (guard_passes labels 1 Hm) by lia.
  change (String.eqb "SMOTE" "SMOTE") with true. cbv iota.
  rewrite length_minority_indices.
  unfold fit_resample. cbn [strategy_class strategy_count k_neighbors].
  replace (nrows features =? length labels)%nat with true
    by (symmetry; apply Nat.eqb_eq; exact Hrows).
  cbn [negb].
  replace (ncols features =? 0)%nat with false
    by (symmetry; apply Nat.eqb_neq; exact Hcols).
  rewrite (qualifying_minority_two_classes labels Hm).
  fold (minority_count labels).
  replace (minority_count labels =? 0)%Z with false
    by (symmetry; apply Z.eqb_neq; lia).
  replace (minority_count labels * 1 <? minority_count labels)%Z with false
    by (symmetry; apply Z.ltb_ge; lia).
  replace (minority_count labels * 1 - minority_count labels =? 0)%Z with true
    by (symmetry; apply Z.eqb_eq; lia).
  reflexivity.
Qed.

(** X5.  With at least two minority members and a negative scale factor
    the balancer raises in both modes: copy mode a [RuntimeError] from
    the repetition of the index tensor, SMOTE mode a [ValueError] from
    the sampler. *)
Theorem balance_negative_scale_raises (features : matrix) (labels : list Z)
    (s : Z) :
  (2 <= minority_count labels)%Z -> (s < 0)%Z ->
  balance_features_labels kneighbors randint uniform features labels s "copy"
  = Raise (RuntimeError "negative dimension") /\
  exists msg,
    balance_features_labels kneighbors randint uniform features labels s "SMOTE"
    = Raise (ValueError msg).
Proof.
  intros Hm Hs. unfold balance_features_labels.
  rewrite (guard_passes_nonzero labels s Hm) by lia.
  change (String.eqb "copy" "SMOTE") with false.
  change (String.eqb "copy" "copy") with true.
  change (String.eqb "SMOTE" "SMOTE") with true. cbv iota.
  rewrite length_minority_indices. split.
  - unfold tensor_repeat.
    replace (s <? 0)%Z with true by (symmetry; apply Z.ltb_lt; exact Hs).
    reflexivity.
  - unfold fit_resample. cbn [strategy_class strategy_count k_neighbors].
    destruct (negb (nrows features =? length labels)%nat);
      [eexists; reflexivity|].
    destruct (ncols features =? 0)%nat; [eexists; reflexivity|].
    destruct (single_class labels); [eexists; reflexivity|].
    fold (minority_count labels).
    destruct (minority_count labels =? 0)%Z; [eexists; reflexivity|].
    replace (minority_count labels * s <? minority_count labels)%Z with true
      by (symmetry; apply Z.ltb_lt; nia).
    eexists. reflexivity.
Qed.

(** X6.  Copy mode indexes the feature matrix with the minority
    positions of the label vector: when a minority label sits at a position
    past the last feature row (at least two minority members, scale factor
    at least one), the call raises [IndexError]. *)
Theorem balance_copy_short_features_raises (features : matrix)
    (labels : list Z) (s : Z) (i : nat) :
  (2 <= minority_count labels)%Z -> (1 <= s)%Z ->
  In i (minority_indices labels) -> (nrows features <= i)%nat ->
  balance_features_labels kneighbors randint uniform features labels s "copy"
  = Raise (IndexError "index out of range").
Proof.
  intros Hm Hs Hin Hi. unfold balance_features_labels.
  rewrite (guard_passes labels s Hm Hs).
  change (String.eqb "copy" "SMOTE") with false.
  change (String.eqb "copy" "copy") with true. cbv iota.
  unfold tensor_repeat.
  replace (s <? 0)%Z with false by (symmetry; apply Z.ltb_ge; lia).
  cbn [rbind].
  rewrite (gather_rows_out_of_range _ _ i); [reflexivity| |exact Hi].
  apply In_concat_repeat; [exact Hin|lia].
Qed.

(** X7.  Outside SMOTE mode the balancer keeps the feature matrix well
    formed: when every input row has the declared width, so has every row
    of a returned matrix. *)
Theorem balance_keeps_well_formed (features features' : matrix)
    (labels labels' : list Z) (s : Z) (sample_method : string) :
  sample_method <> "SMOTE" -> wf_matrix features ->
  balance_features_labels kneighbors randint uniform
    features labels s sample_method
  = Ok (Some (features', labels')) ->
  wf_matrix features'.
Proof.
  intros Hsm Hwf H. apply balance_pair_inv in H.
  destruct H as [[Hf _]|[H|H]].
  - subst. exact Hwf.
  - destruct H as [E _]. contradiction.
  - destruct H as (_ & _ & _ & Hc & [gathered [Hg Hr]] & _).
    unfold wf_matrix in *. rewrite Hr, Hc.
    apply Forall_app. split; [exact Hwf|].
    pose proof (gather_rows_In _ _ _ Hg) as Hin.
    rewrite Forall_forall in *. intros r Hr'. apply Hwf. apply Hin. exact Hr'.
Qed.

End BalancerFurther.

(** ** The prototype similarity module *)

Lemma calculate_similarity_entry (X P S : matrix) (i j : nat) :
  calculate_similarity X P = Ok S ->
  (i < nrows X)%nat -> (j < nrows P)%nat ->
  entry S i j
  = similarity_of_distance
      (squared_euclidean_distance
         (nth i (rows X) [])
         (expand_last (ncols X) (ncols P) (nth j (rows P) []))).
Proof.
  unfold calculate_similarity. intros H Hi Hj.
  destruct (negb _); [discriminate H|]. inversion H; subst S.
  unfold entry. cbn [rows].
  rewrite (nth_map_in (A:=vec) _ _ _ []) by exact Hi.
  rewrite (nth_map_in (A:=vec) _ _ _ [])
    by (rewrite length_map; exact Hj).
  rewrite (nth_map_in (A:=vec) _ _ _ []) by exact Hj.
  cbv beta zeta. f_equal.
  rewrite <- sum_squares_sub, <- norm_squared. reflexivity.
Qed.

Lemma expand_last_same (m : nat) (r : vec) : expand_last m m r = r.
Proof. unfold expand_last. rewrite Nat.eqb_refl. reflexivity. Qed.

Lemma squared_euclidean_distance_sym (a b : vec) :
  squared_euclidean_distance a b = squared_euclidean_distance b a.
Proof.
  unfold squared_euclidean_distance. revert b.
  induction a as [|u a IH]; intros [|v b]; simpl; try reflexivity.
  rewrite IH. ring.
Qed.


(** X8.  A prototype matrix whose width is neither the width of the
    embeddings nor one is refused: [calculate_similarity] raises
    [RuntimeError] before any distance is computed. *)
Theorem calculate_similarity_width_mismatch (node_embedding prototypes : matrix) :
  ncols prototypes <> ncols node_embedding -> ncols prototypes <> 1%nat ->
  calculate_similarity node_embedding prototypes
  = Raise (RuntimeError "expand: the sizes of the last axis do not match").
Proof.
  intros H1 H2. unfold calculate_similarity.
  apply Nat.eqb_neq in H1. apply Nat.eqb_neq in H2. rewrite H1, H2.
  reflexivity.
Qed.

(** X10.  Similarity is symmetric in its two arguments: exchanging the
    embedding matrix and the prototype matrix (of one width) transposes
    the result. *)
Theorem calculate_similarity_transposes (A B S S' : matrix) (i j : nat) :
  ncols A = ncols B ->
  calculate_similarity A B = Ok S -> calculate_similarity B A = Ok S' ->
  (i < nrows A)%nat -> (j < nrows B)%nat ->
  entry S i j = entry S' j i.
Proof.
  intros Hw H1 H2 Hi Hj.
  rewrite (calculate_similarity_entry _ _ _ _ _ H1 Hi Hj).
  rewrite (calculate_similarity_entry _ _ _ _ _ H2 Hj Hi).
  rewrite Hw, !expand_last_same.
  rewrite squared_euclidean_distance_sym. reflexivity.
Qed.


(** ** Construction *)

Lemma concat_map_singleton {A B} (g : A -> B) (l : list A) :
  concat (map (fun a => [g a]) l) = map g l.
Proof. induction l as [|a l IH]; simpl; [reflexivity|]. rewrite IH. reflexivity. Qed.

Lemma concat_map_nil {A B} (l : list A) :
  concat (map (fun _ : A => @nil B) l) = [].
Proof. induction l as [|a l IH]; simpl; [reflexivity|exact IH]. Qed.

Lemma length_concat_uniform {A} (ll : list (list A)) (n : nat) :
  Forall (fun l => length l = n) ll -> length (concat ll) = (length ll * n)%nat.
Proof.
  induction 1 as [|l ll Hl _ IH]; simpl; [reflexivity|].
  rewrite length_app, IH, Hl. reflexivity.
Qed.

Lemma Forall2_seq_nth_error {B} (P : nat -> B -> Prop) (bs : list B) :
  forall k n, Forall2 P (seq k n) bs ->
  forall j, (j < n)%nat -> exists b, nth_error bs j = Some b /\ P (k + j)%nat b.
Proof.
  intros k n. revert k bs. induction n as [|n IH]; intros k bs H j Hj; [lia|].
  simpl in H. inversion H as [|a b l l' Hab Hrest]; subst.
  destruct j as [|j].
  - exists b. rewrite Nat.add_0_r. split; [reflexivity|exact Hab].
  - destruct (IH (S k) l' Hrest j) as [b' [Hb' HP]]; [lia|].
    exists b'. split; [exact Hb'|].
    replace (k + S j)%nat with (S k + j)%nat by lia. exact HP.
Qed.

Lemma Forall2_length_eq {A B} (P : A -> B -> Prop) (l : list A) (bs : list B) :
  Forall2 P l bs -> length bs = length l.
Proof. induction 1; simpl; [reflexivity|f_equal; assumption]. Qed.

Lemma Forall2_right {A B} (P : A -> B -> Prop) (Q : B -> Prop)
    (l : list A) (bs : list B) :
  (forall a b, P a b -> Q b) -> Forall2 P l bs -> Forall Q bs.
Proof.
  intros HPQ. induction 1; constructor; [eapply HPQ; eassumption|assumption].
Qed.

Lemma layer_dims_seq (heads : nat) (tag : nat -> nat -> alloc) :
  forall (t pre : list nat) (h0 : nat),
    map (fun i => tag (nth (i - 1) (pre ++ h0 :: t) 0 * heads)%nat
                      (nth i (pre ++ h0 :: t) 0%nat))
        (seq (S (length pre)) (length t))
    = map (fun d => tag (fst d) (snd d)) (layer_dims heads (h0 * heads) t).
Proof.
  induction t as [|h1 t IH]; intros pre h0; [reflexivity|].
  cbn [length seq map layer_dims fst snd]. f_equal.
  - replace (S (length pre) - 1)%nat with (length pre) by lia.
    rewrite app_nth2 by lia. rewrite Nat.sub_diag.
    rewrite app_nth2 by lia.
    replace (S (length pre) - length pre)%nat with 1%nat by lia. reflexivity.
  - specialize (IH (pre ++ [h0]) h1).
    rewrite <- app_assoc in IH. cbn [app] in IH.
    rewrite length_app in IH. cbn [length] in IH.
    replace (length pre + 1)%nat with (S (length pre)) in IH by lia.
    exact IH.
Qed.

Lemma index_last_last {A} (l : list A) (d a : A) :
  nth_error l (length l - 1) = Some a -> l <> [] -> last l d = a.
Proof.
  intros H Hne. destruct (exists_last Hne) as [l' [b Hl]]. subst l.
  rewrite last_last. rewrite length_app in H. cbn [length] in H.
  replace (length l' + 1 - 1)%nat with (length l') in H by lia.
  rewrite nth_error_app2 in H by lia. rewrite Nat.sub_diag in H.
  inversion H. reflexivity.
Qed.

Lemma map_seq_nth {A B} (f : A -> B) (l : list A) (d : A) :
  map (fun i => f (nth i l d)) (seq 0 (length l)) = map f l.
Proof.
  induction l as [|a l IH]; [reflexivity|].
  cbn [length seq map nth]. f_equal.
  rewrite <- seq_shift, map_map. exact IH.
Qed.

Section ConstructionFurther.

Context {L : Library}.

Lemma mapM_spec {A B} (f : A -> M B) (P : A -> B -> Prop)
    (g : A -> list alloc) (l : list A) :
  (forall a, In a l -> forall w,
        exists b w', f a w = (Ok b, w') /\ P a b /\
                     allocated w' = allocated w ++ g a) ->
  forall w,
    exists bs w',
      mapM f l w = (Ok bs, w') /\ Forall2 P l bs /\
      allocated w' = allocated w ++ concat (map g l).
Proof.
  induction l as [|a rest IH]; intros Hf w.
  - exists [], w. simpl. rewrite app_nil_r. repeat split. constructor.
  - destruct (Hf a (or_introl eq_refl) w) as (b & w1 & Hb & HP & Ha).
    destruct (IH (fun a' Hin => Hf a' (or_intror Hin)) w1)
      as (bs & w2 & Hbs & HF & Hal).
    exists (b :: bs), w2. cbn [mapM].
    rewrite (mbind_ok _ _ _ _ _ Hb), (mbind_ok _ _ _ _ _ Hbs).
    split; [reflexivity|]. split; [constructor; assumption|].
    rewrite Hal, Ha. cbn [map concat]. rewrite <- !app_assoc. reflexivity.
Qed.

Lemma draw_spec {A} (f : seed -> A * seed) (w : world) :
  exists a w', draw f w = (Ok a, w') /\ allocated w' = allocated w.
Proof.
  unfold draw. destruct (f (gen w)) as [a g].
  eexists. eexists. split; reflexivity.
Qed.

Lemma draws_spec {A} (f : seed -> A * seed) (n : nat) (w : world) :
  exists v w',
    mapM (fun _ : nat => draw f) (seq 0 n) w = (Ok v, w') /\
    length v = n /\ allocated w' = allocated w.
Proof.
  destruct (mapM_spec (fun _ : nat => draw f) (fun _ _ => True)
              (fun _ => []) (seq 0 n)) with (w := w)
    as (v & w' & Hv & HF & Hal).
  { intros a _ w0. destruct (draw_spec f w0) as (b & w1 & Hb & Hw).
    exists b, w1. rewrite app_nil_r. repeat split; assumption. }
  exists v, w'. split; [exact Hv|]. split.
  - rewrite (Forall2_length_eq _ _ _ HF). apply length_seq.
  - rewrite Hal, concat_map_nil. apply app_nil_r.
Qed.

Lemma draw_rows_spec {A} (f : seed -> A * seed) (n m : nat) (w : world) :
  exists rs w',
    mapM (fun _ : nat => mapM (fun _ : nat => draw f) (seq 0 m)) (seq 0 n) w
    = (Ok rs, w') /\
    length rs = n /\ Forall (fun r => length r = m) rs /\
    allocated w' = allocated w.
Proof.
  destruct (mapM_spec
              (fun _ : nat => mapM (fun _ : nat => draw f) (seq 0 m))
              (fun _ r => length r = m) (fun _ => []) (seq 0 n))
    with (w := w) as (rs & w' & Hrs & HF & Hal).
  { intros a _ w0. destruct (draws_spec f m w0) as (v & w1 & Hv & Hl & Hw).
    exists v, w1. rewrite app_nil_r. repeat split; assumption. }
  exists rs, w'. split; [exact Hrs|]. split.
  - rewrite (Forall2_length_eq _ _ _ HF). apply length_seq.
  - split.
    + eapply Forall2_right; [|exact HF]. intros a b H. exact H.
    + rewrite Hal, concat_map_nil. apply app_nil_r.
Qed.

Lemma log_alloc_bind {B} (a : alloc) (k : unit -> M B) (w : world) :
  mbind (log_alloc a) k w = k tt (mkWorld (gen w) (allocated w ++ [a])).
Proof. reflexivity. Qed.

Lemma new_Linear_spec (i o : nat) (w : world) :
  exists lin w',
    new_Linear i o w = (Ok lin, w') /\
    in_features lin = i /\ out_features lin = o /\
    allocated w' = allocated w ++ [A_Linear i o].
Proof.
  unfold new_Linear. rewrite log_alloc_bind.
  destruct (draw_rows_spec (init_uniform i) o i
              (mkWorld (gen w) (allocated w ++ [A_Linear i o])))
    as (rs & w1 & Hrs & _ & _ & Hal1).
  destruct (draws_spec (init_uniform i) o w1) as (b & w2 & Hb & _ & Hal2).
  exists (mkLinear i o rs b), w2.
  rewrite (mbind_ok _ _ _ _ _ Hrs), (mbind_ok _ _ _ _ _ Hb).
  split; [reflexivity|]. split; [reflexivity|]. split; [reflexivity|].
  rewrite Hal2, Hal1. reflexivity.
Qed.

Lemma new_GCNConv_spec (i o : nat) (w : world) :
  exists c w',
    new_GCNConv i o w = (Ok c, w') /\
    allocated w' = allocated w ++ [A_GCNConv i o].
Proof.
  unfold new_GCNConv. rewrite log_alloc_bind.
  destruct (draw_spec (GCNConv_new i o)
              (mkWorld (gen w) (allocated w ++ [A_GCNConv i o])))
    as (c & w' & Hc & Hal).
  exists c, w'. split; [exact Hc|exact Hal].
Qed.

Lemma new_GATConv_spec (i o heads : nat) (p : R) (w : world) :
  exists c w',
    new_GATConv i o heads p w = (Ok c, w') /\
    allocated w' = allocated w ++ [A_GATConv i o heads].
Proof.
  unfold new_GATConv. rewrite log_alloc_bind.
  destruct (draw_spec (GATConv_new i o heads p)
              (mkWorld (gen w) (allocated w ++ [A_GATConv i o heads])))
    as (c & w' & Hc & Hal).
  exists c, w'. split; [exact Hc|exact Hal].
Qed.

Lemma new_TransformerConv_spec (i o heads : nat) (p : R) (w : world) :
  exists c w',
    new_TransformerConv i o heads p w = (Ok c, w') /\
    allocated w' = allocated w ++ [A_TransformerConv i o heads].
Proof.
  unfold new_TransformerConv. rewrite log_alloc_bind.
  destruct (draw_spec (TransformerConv_new i o heads p)
              (mkWorld (gen w) (allocated w ++ [A_TransformerConv i o heads])))
    as (c & w' & Hc & Hal).
  exists c, w'. split; [exact Hc|exact Hal].
Qed.

Lemma new_LayerNorm_spec (width : nat) (w : world) :
  exists c w',
    new_LayerNorm width w = (Ok c, w') /\
    allocated w' = allocated w ++ [A_LayerNorm width].
Proof.
  unfold new_LayerNorm. rewrite log_alloc_bind.
  eexists. eexists. split; reflexivity.
Qed.

Lemma index_in_range {A} (l : list A) (i : nat) (d : A) :
  (i < length l)%nat -> index l i = Ok (nth i l d).
Proof.
  intros Hi. unfold index. rewrite (nth_error_nth' l d Hi). reflexivity.
Qed.

(** The layers after the first one: one per position [1 .. len - 1]. *)
Lemma stacked_layers_spec {T} (mk : nat -> nat -> M T)
    (tag : nat -> nat -> alloc) (hs : list nat) :
  (forall a b w, exists c w',
        mk a b w = (Ok c, w') /\ allocated w' = allocated w ++ [tag a b]) ->
  forall w,
    exists cs w',
      mapM (fun i =>
              mbind (lift (index hs (i - 1)))
                    (fun a => mbind (lift (index hs i)) (fun b => mk a b)))
           (seq 1 (length hs - 1)) w
      = (Ok cs, w') /\
      length cs = (length hs - 1)%nat /\
      allocated w'
      = allocated w
          ++ map (fun i => tag (nth (i - 1) hs 0%nat) (nth i hs 0%nat))
                 (seq 1 (length hs - 1)).
Proof.
  intros Hmk w.
  destruct (mapM_spec
              (fun i =>
                 mbind (lift (index hs (i - 1)))
                       (fun a => mbind (lift (index hs i)) (fun b => mk a b)))
              (fun _ _ => True)
              (fun i => [tag (nth (i - 1) hs 0%nat) (nth i hs 0%nat)])
              (seq 1 (length hs - 1))) with (w := w)
    as (cs & w' & Hcs & HF & Hal).
  { intros i Hin w0. apply in_seq in Hin.
    destruct (Hmk (nth (i - 1) hs 0%nat) (nth i hs 0%nat) w0)
      as (c & w1 & Hc & Hw).
    exists c, w1. split; [|split; [exact I|exact Hw]].
    rewrite (index_in_range hs (i - 1) 0%nat) by lia.
    rewrite (index_in_range hs i 0%nat) by lia.
    exact Hc. }
  exists cs, w'. split; [exact Hcs|]. split.
  - rewrite (Forall2_length_eq _ _ _ HF). apply length_seq.
  - rewrite Hal, concat_map_singleton. reflexivity.
Qed.

(** X12.  [MultiLayerGCN] builds one convolution per hidden size, the
    first from the input width and each later one from the hidden size
    before it, keeps the activation name as given, and on an empty list of
    hidden sizes raises [IndexError] before anything is allocated. *)
Theorem MultiLayerGCN_init_layers (num_features : nat) (hidden_sizes : list nat)
    (activation_fuc : string) (w : world) :
  (hidden_sizes = [] ->
   MultiLayerGCN_init num_features hidden_sizes activation_fuc w
   = (Raise (IndexError "list index out of range"), w)) /\
  (hidden_sizes <> [] ->
   exists g w',
     MultiLayerGCN_init num_features hidden_sizes activation_fuc w = (Ok g, w') /\
     gcn_activation g = activation_fuc /\
     length (conv_layers g) = length hidden_sizes /\
     allocated w'
     = allocated w
         ++ map (fun d => A_GCNConv (fst d) (snd d))
                (layer_dims 1 num_features hidden_sizes)).
Proof.
  split.
  - intros E. subst. reflexivity.
  - intros Hne. destruct hidden_sizes as [|h0 t]; [contradiction|].
    unfold MultiLayerGCN_init.
    destruct (new_GCNConv_spec num_features h0 w) as (c0 & w1 & Hc0 & Hal1).
    destruct (stacked_layers_spec new_GCNConv A_GCNConv (h0 :: t)
                new_GCNConv_spec w1) as (cs & w2 & Hcs & Hlen & Hal2).
    exists (mkGCN activation_fuc (c0 :: cs)), w2.
    unfold mbind at 1. unfold lift at 1. cbn [index nth_error].
    rewrite (mbind_ok _ _ _ _ _ Hc0), (mbind_ok _ _ _ _ _ Hcs).
    split; [reflexivity|]. split; [reflexivity|]. split.
    + cbn [conv_layers length]. rewrite Hlen. cbn [length]. lia.
    + rewrite Hal2, Hal1, <- app_assoc. f_equal.
      replace (length (h0 :: t) - 1)%nat with (length t)
        by (cbn [length]; lia).
      cbn [layer_dims map fst snd app]. f_equal.
      rewrite <- (layer_dims_seq 1 A_GCNConv t [] h0).
      apply map_ext. intros i. cbn [app]. rewrite Nat.mul_1_r. reflexivity.
Qed.

(** X13.  [MultiLayerGAT] builds one attention layer per hidden size with
    the given number of heads: the first reads the input width, each later
    one reads the hidden size before it times the number of heads; an empty
    list of hidden sizes raises [IndexError] before anything is
    allocated. *)
Theorem MultiLayerGAT_init_layers (in_features : nat) (hidden_dims : list nat)
    (activation_fuc : string) (num_head : nat) (p : R) (w : world) :
  (hidden_dims = [] ->
   MultiLayerGAT_init in_features hidden_dims activation_fuc num_head p w
   = (Raise (IndexError "list index out of range"), w)) /\
  (hidden_dims <> [] ->
   exists g w',
     MultiLayerGAT_init in_features hidden_dims activation_fuc num_head p w
     = (Ok g, w') /\
     gat_activation g = activation_fuc /\
     length (gat_layers g) = length hidden_dims /\
     allocated w'
     = allocated w
         ++ map (fun d => A_GATConv (fst d) (snd d) num_head)
                (layer_dims num_head in_features hidden_dims)).
Proof.
  split.
  - intros E. subst. reflexivity.
  - intros Hne. destruct hidden_dims as [|h0 t]; [contradiction|].
    unfold MultiLayerGAT_init.
    destruct (new_GATConv_spec in_features h0 num_head p w)
      as (c0 & w1 & Hc0 & Hal1).
    destruct (stacked_layers_spec
                (fun a b => new_GATConv (a * num_head) b num_head p)
                (fun a b => A_GATConv (a * num_head) b num_head) (h0 :: t)
                (fun a b w0 => new_GATConv_spec (a * num_head) b num_head p w0)
                w1) as (cs & w2 & Hcs & Hlen & Hal2).
    cbv beta in Hcs, Hal2.
    exists (mkGAT activation_fuc (c0 :: cs)), w2.
    unfold mbind at 1. unfold lift at 1. cbn [index nth_error].
    rewrite (mbind_ok _ _ _ _ _ Hc0), (mbind_ok _ _ _ _ _ Hcs).
    split; [reflexivity|]. split; [reflexivity|]. split.
    + cbn [gat_layers length]. rewrite Hlen. cbn [length]. lia.
    + rewrite Hal2, Hal1, <- app_assoc. f_equal.
      replace (length (h0 :: t) - 1)%nat with (length t)
        by (cbn [length]; lia).
      cbn [layer_dims map fst snd app]. f_equal.
      exact (layer_dims_seq num_head (fun a b => A_GATConv a b num_head) t [] h0).
Qed.

(** X14.  [MultiLayerGTC] builds one transformer convolution and one layer
    normalisation per hidden size; the normalisation of a layer has the
    layer's output width, its hidden size times the number of heads.  An
    empty list of hidden sizes raises [IndexError] before anything is
    allocated. *)
Theorem MultiLayerGTC_init_layers (in_features : nat) (hidden_dims : list nat)
    (num_head : nat) (p : R) (w : world) :
  (hidden_dims = [] ->
   MultiLayerGTC_init in_features hidden_dims num_head p w
   = (Raise (IndexError "list index out of range"), w)) /\
  (hidden_dims <> [] ->
   exists g w',
     MultiLayerGTC_init in_features hidden_dims num_head p w = (Ok g, w') /\
     length (gtc_layers g) = length hidden_dims /\
     length (layerNormList g) = length hidden_dims /\
     allocated w'
     = allocated w
         ++ map (fun d => A_TransformerConv (fst d) (snd d) num_head)
                (layer_dims num_head in_features hidden_dims)
         ++ map (fun h => A_LayerNorm (h * num_head)) hidden_dims).
Proof.
  split.
  - intros E. subst. reflexivity.
  - intros Hne. destruct hidden_dims as [|h0 t]; [contradiction|].
    unfold MultiLayerGTC_init.
    destruct (new_TransformerConv_spec in_features h0 num_head p w)
      as (c0 & w1 & Hc0 & Hal1).
    destruct (stacked_layers_spec
                (fun a b => new_TransformerConv (a * num_head) b num_head p)
                (fun a b => A_TransformerConv (a * num_head) b num_head)
                (h0 :: t)
                (fun a b w0 =>
                   new_TransformerConv_spec (a * num_head) b num_head p w0)
                w1) as (cs & w2 & Hcs & Hlen & Hal2).
    cbv beta in Hcs, Hal2.
    destruct (mapM_spec
                (fun i =>
                   mbind (lift (index (h0 :: t) i))
                         (fun h => new_LayerNorm (h * num_head)))
                (fun _ _ => True)
                (fun i => [A_LayerNorm (nth i (h0 :: t) 0 * num_head)%nat])
                (seq 0 (length (h0 :: t)))) with (w := w2)
      as (ns & w3 & Hns & HF & Hal3).
    { intros i Hin w0. apply in_seq in Hin.
      destruct (new_LayerNorm_spec (nth i (h0 :: t) 0 * num_head)%nat w0)
        as (c & w' & Hc & Hw).
      exists c, w'. split; [|split; [exact I|exact Hw]].
      rewrite (index_in_range (h0 :: t) i 0%nat) by lia. exact Hc. }
    exists (mkGTC (c0 :: cs) ns), w3.
    unfold mbind at 1. unfold lift at 1. cbn [index nth_error].
    rewrite (mbind_ok _ _ _ _ _ Hc0), (mbind_ok _ _ _ _ _ Hcs),
      (mbind_ok _ _ _ _ _ Hns).
    split; [reflexivity|]. split.
    + cbn [gtc_layers length]. rewrite Hlen. cbn [length]. lia.
    + split.
      * cbn [layerNormList]. rewrite (Forall2_length_eq _ _ _ HF).
        apply length_seq.
      * rewrite Hal3, Hal2, Hal1, <- !app_assoc. f_equal.
        rewrite concat_map_singleton.
        rewrite (map_seq_nth (fun h => A_LayerNorm (h * num_head)) (h0 :: t) 0%nat).
        replace (length (h0 :: t) - 1)%nat with (length t)
          by (cbn [length]; lia).
        cbn [layer_dims map fst snd app]. f_equal.
        pose proof (layer_dims_seq num_head
                      (fun a b => A_TransformerConv a b num_head) t [] h0)
          as Hd.
        cbn [app length] in Hd. rewrite Hd. reflexivity.
Qed.

End ConstructionFurther.

(** ** Encoders and readouts *)

Lemma relu_nonnegative (h : matrix) : nonnegative (map_matrix relu h).
Proof.
  unfold nonnegative, map_matrix. cbn [rows].
  apply Forall_forall. intros r Hr. apply in_map_iff in Hr.
  destruct Hr as [r0 [Hr0 _]]. subst r.
  apply Forall_forall. intros a Ha. apply in_map_iff in Ha.
  destruct Ha as [b [Hb _]]. subst a. unfold relu. apply Rmax_l.
Qed.

Lemma loop_width_chain (fcs : list Linear) (input_dim n : nat) :
  (forall j, (j < n)%nat ->
             exists fc, nth_error fcs j = Some fc /\
                        in_features fc = (input_dim / 2 ^ j)%nat /\
                        out_features fc = (input_dim / 2 ^ (j + 1))%nat) ->
  forall m k, (k + m <= n)%nat ->
              loop_width fcs (seq k m) (input_dim / 2 ^ k)
              = Some (input_dim / 2 ^ (k + m))%nat.
Proof.
  intros Hfc. induction m as [|m IH]; intros k Hk.
  - rewrite Nat.add_0_r. reflexivity.
  - cbn [seq loop_width].
    destruct (Hfc k) as (fc & Hnth & Hin & Hout); [lia|].
    rewrite Hnth, Hin, Nat.eqb_refl, Hout.
    replace (k + 1)%nat with (S k) by lia.
    rewrite (IH (S k)) by lia. f_equal. f_equal. f_equal. lia.
Qed.

Section ModelFurther.

Context {L : Library}.

Lemma GCN_loop_relu_nonnegative (convs : list GCNConv) :
  forall (m out : matrix) (e : edges),
    GCN_loop "relu" convs m e = Ok out ->
    nonnegative m \/ convs <> [] -> nonnegative out.
Proof.
  induction convs as [|conv rest IH]; intros m out e H Hor.
  - simpl in H. inversion H; subst. destruct Hor as [Hm|Hne];
      [exact Hm|contradiction].
  - cbn [GCN_loop] in H.
    change (String.eqb "relu" "relu") with true in H. cbv iota in H.
    destruct (GCNConv_forward conv m e) as [h|err]; [|discriminate H].
    cbn [rbind] in H. apply (IH _ _ _ H). left. apply relu_nonnegative.
Qed.

Lemma GAT_loop_relu_nonnegative (gats : list GATConv) :
  forall (m out : matrix) (e : edges) (w w' : world),
    GAT_loop "relu" gats m e w = (Ok out, w') ->
    nonnegative m \/ gats <> [] -> nonnegative out.
Proof.
  induction gats as [|gat rest IH]; intros m out e w w' H Hor.
  - simpl in H. inversion H; subst. destruct Hor as [Hm|Hne];
      [exact Hm|contradiction].
  - cbn [GAT_loop] in H.
    change (String.eqb "relu" "relu") with true in H. cbv iota in H.
    unfold mbind at 1 in H. unfold mbind at 1 in H.
    destruct (draw_result (GATConv_forward gat m e) w) as [[h|err] w1];
      [|discriminate H].
    unfold ret at 1 in H. apply (IH _ _ _ _ _ H). left. apply relu_nonnegative.
Qed.

(** X15.  With activation relu the activation follows every layer, the
    last one included: whatever the layers compute, the output of a GCN or
    GAT encoder with at least one layer has no negative entry. *)
Theorem relu_encoder_output_nonnegative (data : graph edges) (w w' : world)
    (out : matrix) :
  (forall convs,
      convs <> [] ->
      MultiLayerGCN_forward (mkGCN "relu" convs) data w = (Ok out, w') ->
      nonnegative out) /\
  (forall gats,
      gats <> [] ->
      MultiLayerGAT_forward (mkGAT "relu" gats) data w = (Ok out, w') ->
      nonnegative out).
Proof.
  split.
  - intros convs Hne H. unfold MultiLayerGCN_forward, lift in H.
    cbn [gcn_activation conv_layers] in H.
    destruct (GCN_loop "relu" convs (x data) (edge_index data)) as [o|err] eqn:E;
      [|discriminate H].
    inversion H; subst. eapply GCN_loop_relu_nonnegative; [exact E|].
    right. exact Hne.
  - intros gats Hne H. unfold MultiLayerGAT_forward in H.
    cbn [gat_activation gat_layers] in H.
    eapply GAT_loop_relu_nonnegative; [exact H|]. right. exact Hne.
Qed.

Lemma MLPReadout_init_spec (input_dim output_dim : nat) (p : R) (n : nat)
    (w : world) :
  exists r w',
    MLPReadout_init input_dim output_dim p n w = (Ok r, w') /\
    n_layers r = n /\ length (fc_layers r) = S n /\ training r = true /\
    allocated w'
    = allocated w
        ++ map (fun k => A_Linear (input_dim / 2 ^ k) (input_dim / 2 ^ (k + 1)))
               (seq 0 n)
        ++ [A_Linear (input_dim / 2 ^ n) output_dim] /\
    ((0 <= p <= 1)%R -> readout_width r input_dim = Some output_dim) /\
    (exists fc, nth_error (fc_layers r) 0 = Some fc /\
                in_features fc = input_dim) /\
    dropout r = p.
Proof.
  unfold MLPReadout_init.
  destruct (mapM_spec
              (fun k => new_Linear (input_dim / 2 ^ k) (input_dim / 2 ^ (k + 1)))
              (fun k lin => in_features lin = (input_dim / 2 ^ k)%nat /\
                            out_features lin = (input_dim / 2 ^ (k + 1))%nat)
              (fun k => [A_Linear (input_dim / 2 ^ k) (input_dim / 2 ^ (k + 1))])
              (seq 0 n)) with (w := w) as (hidden & w1 & Hh & HF & Hal1).
  { intros k _ w0.
    destruct (new_Linear_spec (input_dim / 2 ^ k) (input_dim / 2 ^ (k + 1)) w0)
      as (lin & w' & Hl & Hi & Ho & Hw).
    exists lin, w'. repeat split; assumption. }
  destruct (new_Linear_spec (input_dim / 2 ^ n) output_dim w1)
    as (last & w2 & Hl & Hi & Ho & Hal2).
  assert (Hlen : length hidden = n).
  { rewrite (Forall2_length_eq _ _ _ HF). apply length_seq. }
  assert (Hwidth : (0 <= p <= 1)%R ->
                   readout_width (mkMLPReadout (hidden ++ [last]) n p true)
                     input_dim = Some output_dim).
  { intros Hp. rewrite readout_width_in_range by exact Hp.
    unfold layers_width. cbn [fc_layers n_layers].
    assert (Hfc : forall j, (j < n)%nat ->
                exists fc, nth_error (hidden ++ [last]) j = Some fc /\
                           in_features fc = (input_dim / 2 ^ j)%nat /\
                           out_features fc = (input_dim / 2 ^ (j + 1))%nat).
    { intros j Hj.
      destruct (Forall2_seq_nth_error _ _ _ _ HF j Hj) as (fc & Hnth & Hin & Hout).
      exists fc. rewrite nth_error_app1 by lia.
      split; [exact Hnth|]. split; [exact Hin|exact Hout]. }
    pose proof (loop_width_chain (hidden ++ [last]) input_dim n Hfc n 0%nat
                  (Nat.le_refl n)) as Hchain.
    cbn [Nat.add Nat.pow] in Hchain. rewrite Nat.div_1_r in Hchain.
    rewrite Hchain.
    rewrite nth_error_app2 by lia. rewrite Hlen, Nat.sub_diag.
    cbn [nth_error]. rewrite Hi, Nat.eqb_refl, Ho. reflexivity. }
  exists (mkMLPReadout (hidden ++ [last]) n p true), w2.
  rewrite (mbind_ok _ _ _ _ _ Hh), (mbind_ok _ _ _ _ _ Hl).
  split; [reflexivity|]. split; [reflexivity|]. split.
  { cbn [fc_layers]. rewrite length_app, Hlen. cbn [length]. lia. }
  split; [reflexivity|]. split.
  { rewrite Hal2, Hal1, concat_map_singleton, <- app_assoc. reflexivity. }
  split; [exact Hwidth|].
  split; [|reflexivity].
  cbn [fc_layers]. destruct n as [|n'].
  - destruct hidden; [|discriminate Hlen]. exists last.
    split; [reflexivity|]. rewrite Hi. cbn [Nat.pow]. apply Nat.div_1_r.
  - destruct (Forall2_seq_nth_error _ _ _ _ HF 0%nat) as (fc & Hnth & Hin & _);
      [lia|].
    exists fc. rewrite nth_error_app1 by lia. split; [exact Hnth|].
    rewrite Hin. cbn [Nat.add Nat.pow]. apply Nat.div_1_r.
Qed.


Lemma MLPReadout_forward_rejects (self : MLPReadout) (fc : Linear)
    (m : matrix) (w : world) :
  rate_refused (dropout self) = false \/ n_layers self = 0%nat ->
  nth_error (fc_layers self) 0 = Some fc -> ncols m <> in_features fc ->
  exists w',
    MLPReadout_forward self m w
    = (Raise (RuntimeError "mat1 and mat2 shapes cannot be multiplied"), w').
Proof.
  intros Hrate Hfc Hne. unfold MLPReadout_forward.
  destruct (n_layers self) as [|n] eqn:En.
  - cbn [seq readout_loop]. exists w.
    unfold mbind, ret, lift, index. rewrite Hfc.
    unfold Linear_forward. apply Nat.eqb_neq in Hne. rewrite Hne. reflexivity.
  - destruct Hrate as [Hrate|Hrate]; [|discriminate Hrate].
    cbn [seq readout_loop].
    destruct (F_dropout_total m (dropout self) (training self) w Hrate)
      as (m1 & w1 & Hd & Hc & _).
    exists w1. unfold mbind at 1. unfold mbind at 1.
    rewrite Hd. unfold mbind at 1. unfold lift at 1. unfold index. rewrite Hfc.
    unfold mbind at 1. unfold lift at 1. unfold Linear_forward.
    rewrite Hc. apply Nat.eqb_neq in Hne. rewrite Hne. reflexivity.
Qed.

(** X17.  The errors of the readout, in their order.  With a hidden layer
    and a dropout rate outside [0, 1], the forward pass raises
    [ValueError] at its first dropout call, before any linear layer and
    whatever the input.  Otherwise (a rate in [0, 1], or no hidden layer,
    where dropout is never called) the first linear layer refuses a matrix
    of another width: the forward pass raises [RuntimeError] whatever
    dropout draws. *)
Theorem MLPReadout_forward_wrong_width (self : MLPReadout) (m : matrix)
    (w : world) :
  (n_layers self <> 0%nat ->
   (dropout self < 0)%R \/ (1 < dropout self)%R ->
   MLPReadout_forward self m w
   = (Raise (ValueError "dropout probability has to be between 0 and 1"), w)) /\
  (forall fc,
      (0 <= dropout self <= 1)%R \/ n_layers self = 0%nat ->
      nth_error (fc_layers self) 0 = Some fc -> ncols m <> in_features fc ->
      exists w',
        MLPReadout_forward self m w
        = (Raise (RuntimeError "mat1 and mat2 shapes cannot be multiplied"), w')).
Proof.
  split.
  - intros Hn Hp. unfold MLPReadout_forward.
    destruct (n_layers self) as [|n]; [contradiction|].
    cbn [seq readout_loop]. unfold F_dropout.
    rewrite (rate_refused_true _ Hp). reflexivity.
  - intros fc Hrate. apply MLPReadout_forward_rejects.
    destruct Hrate as [Hp|Hn]; [left; apply rate_refused_false; exact Hp|right; exact Hn].
Qed.

Lemma readout_loop_eval (self : MLPReadout) (ns : list nat) :
  training self = false ->
  forall m, exists r, forall w, readout_loop self ns m w = (r, w).
Proof.
  intros Ht. induction ns as [|n rest IH]; intros m.
  - exists (Ok m). intros w. reflexivity.
  - cbn [readout_loop]. unfold F_dropout. rewrite Ht.
    destruct (rate_refused (dropout self)).
    { eexists. intros w. reflexivity. }
    destruct (index (fc_layers self) n) as [fc|e] eqn:Ei.
    + destruct (Linear_forward fc m) as [m2|e] eqn:El.
      * destruct (IH (map_matrix gelu m2)) as [r Hr].
        exists r. intros w. unfold mbind, ret, lift. rewrite El. apply Hr.
      * exists (Raise e). intros w. unfold mbind, ret, lift. rewrite El.
        reflexivity.
    + exists (Raise e). intros w. unfold mbind, ret, lift. reflexivity.
Qed.

(** X18.  Dropout is the only use the readout makes of the random
    generator: outside training mode the forward pass leaves the generator
    as it found it, and its outcome is the same from every generator
    state. *)
Theorem MLPReadout_forward_eval_deterministic (self : MLPReadout) (m : matrix) :
  training self = false ->
  exists r, forall w, MLPReadout_forward self m w = (r, w).
Proof.
  intros Ht. unfold MLPReadout_forward.
  destruct (readout_loop_eval self (seq 0 (n_layers self)) Ht m) as [r Hr].
  destruct r as [m1|e].
  - destruct (index (fc_layers self) (n_layers self)) as [fc|e] eqn:Ei.
    + exists (Linear_forward fc m1). intros w.
      unfold mbind. rewrite Hr. unfold lift. reflexivity.
    + exists (Raise e). intros w. unfold mbind. rewrite Hr. reflexivity.
  - exists (Raise e). intros w. unfold mbind. rewrite Hr. reflexivity.
Qed.

(** X19.  The plain [MLP] builds its two linear layers through
    [mlp_hidden_dim], and its forward pass applies both of them for every
    activation name, recognised or not: a matrix of width [mlp_input_dim]
    comes out with as many rows and width [mlp_output_dim]. *)
Theorem MLP_init_forward (mlp_input_dim mlp_hidden_dim mlp_output_dim : nat)
    (activation_fuc : string) (w : world) :
  exists self w',
    MLP_init mlp_input_dim mlp_hidden_dim mlp_output_dim activation_fuc w
    = (Ok self, w') /\
    mlp_activation self = activation_fuc /\
    allocated w'
    = allocated w ++ [A_Linear mlp_input_dim mlp_hidden_dim;
                      A_Linear mlp_hidden_dim mlp_output_dim] /\
    (forall m : matrix,
        ncols m = mlp_input_dim ->
        exists out,
          MLP_forward self m = Ok out /\
          ncols out = mlp_output_dim /\ nrows out = nrows m).
Proof.
  unfold MLP_init.
  destruct (new_Linear_spec mlp_input_dim mlp_hidden_dim w)
    as (l1 & w1 & H1 & Hi1 & Ho1 & Hal1).
  destruct (new_Linear_spec mlp_hidden_dim mlp_output_dim w1)
    as (l2 & w2 & H2 & Hi2 & Ho2 & Hal2).
  exists (mkMLP activation_fuc l1 l2), w2.
  rewrite (mbind_ok _ _ _ _ _ H1), (mbind_ok _ _ _ _ _ H2).
  split; [reflexivity|]. split; [reflexivity|]. split.
  { rewrite Hal2, Hal1, <- app_assoc. reflexivity. }
  intros m Hm. unfold MLP_forward. cbn [fc1 fc2 mlp_activation].
  destruct (Linear_forward_shape l1 m) as (h & Hh & Hch & Hrh); [congruence|].
  rewrite Hh. cbn [rbind].
  assert (Hact : forall h', ncols h' = ncols h -> nrows h' = nrows h ->
                            exists out, Linear_forward l2 h' = Ok out /\
                                        ncols out = mlp_output_dim /\
                                        nrows out = nrows m).
  { intros h' Hc Hr.
    destruct (Linear_forward_shape l2 h') as (out & Ho & Hco & Hro);
      [congruence|].
    exists out. split; [exact Ho|]. split; [congruence|].
    exact (eq_trans Hro (eq_trans Hr Hrh)). }
  assert (Hmap : forall f, ncols (map_matrix f h) = ncols h /\
                           nrows (map_matrix f h) = nrows h).
  { intros f. unfold map_matrix, nrows. cbn [ncols rows].
    rewrite length_map. split; reflexivity. }
  destruct (String.eqb activation_fuc "relu");
    [apply Hact; apply Hmap|].
  destruct (String.eqb activation_fuc "leaky_relu");
    [apply Hact; apply Hmap|].
  destruct (String.eqb activation_fuc "gelu");
    [apply Hact; apply Hmap|].
  apply Hact; reflexivity.
Qed.

End ModelFurther.

(** ** The orchestrator *)

Section OrchestratorFurther.

Context {L : Library}.

Lemma new_randn_spec (a b c : nat) (w : world) :
  exists t w',
    new_randn a b c w = (Ok t, w') /\
    dim0 t = a /\ dim1 t = b /\ dim2 t = c /\
    length (concat (data3 t)) = (a * b)%nat /\
    Forall (fun v => length v = c) (concat (data3 t)) /\
    allocated w' = allocated w ++ [A_randn [a; b; c]].
Proof.
  unfold new_randn. rewrite log_alloc_bind.
  destruct (mapM_spec
              (fun _ : nat =>
                 mapM (fun _ : nat => mapM (fun _ : nat => draw randn) (seq 0 c))
                      (seq 0 b))
              (fun _ blk => length blk = b /\ Forall (fun v => length v = c) blk)
              (fun _ => []) (seq 0 a))
    with (w := mkWorld (gen w) (allocated w ++ [A_randn [a; b; c]]))
    as (d & w1 & Hd & HF & Hal).
  { intros i _ w0.
    destruct (draw_rows_spec randn b c w0) as (rs & w' & Hrs & Hl & Hf & Hw).
    exists rs, w'. rewrite app_nil_r. repeat split; assumption. }
  exists (mkTensor3 a b c d), w1.
  rewrite (mbind_ok _ _ _ _ _ Hd).
  split; [reflexivity|]. split; [reflexivity|]. split; [reflexivity|].
  split; [reflexivity|]. cbn [data3]. split.
  - transitivity (length d * b)%nat.
    + apply length_concat_uniform.
      eapply Forall2_right; [|exact HF]. intros i blk [H _]. exact H.
    + rewrite (Forall2_length_eq _ _ _ HF), length_seq. reflexivity.
  - split.
    + apply Forall_concat. eapply Forall2_right; [|exact HF].
      intros i blk [_ H]. exact H.
    + rewrite Hal, concat_map_nil. apply app_nil_r.
Qed.

Lemma index_last_ok {A} (l : list A) (d a : A) :
  index_last l = Ok a -> l <> [] /\ last l d = a.
Proof.
  unfold index_last, index. intros H.
  destruct l as [|b l']; [discriminate H|].
  split; [discriminate|].
  destruct (nth_error (b :: l') (length (b :: l') - 1)) as [a'|] eqn:E;
    [|discriminate H].
  inversion H; subst a'. apply index_last_last; [exact E|discriminate].
Qed.

Ltac run_init H :=
  match type of H with
  | context [match ?m ?w with _ => _ end] =>
      let r := fresh "r" in
      let w' := fresh "w" in
      let E := fresh "E" in
      destruct (m w) as [r w'] eqn:E; destruct r; [|discriminate H]
  end.

Lemma SLADGNN_init_parts (c : config) (w w' : world) (m : SLADGNN) :
  SLADGNN_init c w = (Ok m, w') ->
  hidden_sizes c <> [] /\
  exists w0 w1,
    new_randn (num_classes c) (num_prototypes_per_class c) (encoder_width c) w0
    = (Ok (prototype_layer m), w1) /\
    MLPReadout_init (mlp_input_dim c) (mlp_output_dim c)
      default_dropout default_n_layers w1 = (Ok (mlp m), w').
Proof.
  unfold SLADGNN_init, encoder_width. intros H.
  destruct (String.eqb (GNN_type c) "gcn");
    [|destruct (String.eqb (GNN_type c) "gat");
      [|destruct (String.eqb (GNN_type c) "gtc"); [|discriminate H]]];
    unfold mbind at 1 in H; run_init H;
    unfold mbind at 1 in H; unfold lift at 1 in H;
    destruct (index_last (hidden_sizes c)) as [d|e] eqn:Ed; [|discriminate H| |discriminate H| |discriminate H];
    destruct (index_last_ok _ 0%nat _ Ed) as [Hne Hlast]; rewrite Hlast;
    unfold mbind at 1 in H; run_init H;
    unfold mbind at 1 in H; run_init H;
    unfold ret in H; inversion H; subst; cbn [prototype_layer mlp];
    (split; [exact Hne|]); eexists; eexists; split; eassumption.
Qed.

(** X20.  A constructed model is sized from its configuration: the
    hidden sizes are not empty, the prototype bank has [num_classes] by
    [num_prototypes_per_class] prototypes, each as wide as the output of
    the selected encoder ([hidden_sizes[-1]], times the number of heads for
    gat and gtc), and the readout maps width [mlp_input_dim] to
    [mlp_output_dim]. *)
Theorem SLADGNN_init_shapes (c : config) (w w' : world) (m : SLADGNN) :
  SLADGNN_init c w = (Ok m, w') ->
  hidden_sizes c <> [] /\
  dim0 (prototype_layer m) = num_classes c /\
  dim1 (prototype_layer m) = num_prototypes_per_class c /\
  dim2 (prototype_layer m) = encoder_width c /\
  length (concat (data3 (prototype_layer m)))
  = (num_classes c * num_prototypes_per_class c)%nat /\
  Forall (fun v => length v = encoder_width c)
         (concat (data3 (prototype_layer m))) /\
  n_layers (mlp m) = 1%nat /\
  readout_width (mlp m) (mlp_input_dim c) = Some (mlp_output_dim c).
Proof.
  intros H. destruct (SLADGNN_init_parts c w w' m H) as (Hne & w0 & w1 & Hp & Hr).
  destruct (new_randn_spec (num_classes c) (num_prototypes_per_class c)
              (encoder_width c) w0)
    as (t & w2 & Ht & H0 & H1 & H2 & Hlen & Hwf & _).
  rewrite Hp in Ht. inversion Ht; subst t w2.
  destruct (MLPReadout_init_spec (mlp_input_dim c) (mlp_output_dim c)
              default_dropout default_n_layers w1)
    as (r & w3 & Hr' & Hn & _ & _ & _ & Hwidth & _).
  rewrite Hr in Hr'. inversion Hr'; subst r w3.
  repeat (split; [assumption|]). exact (Hwidth default_dropout_in_range).
Qed.

(** X21.  With a supported encoder tag and an empty list of hidden sizes
    the constructor raises [IndexError] before anything is allocated. *)
Theorem SLADGNN_init_empty_hidden_sizes (c : config) (w : world) :
  hidden_sizes c = [] ->
  GNN_type c = "gcn" \/ GNN_type c = "gat" \/ GNN_type c = "gtc" ->
  SLADGNN_init c w = (Raise (IndexError "list index out of range"), w).
Proof.
  intros Hhs Ht. unfold SLADGNN_init. rewrite Hhs.
  destruct Ht as [E|[E|E]]; rewrite E; reflexivity.
Qed.

End OrchestratorFurther.

(** ** The forward pass *)

Lemma balance_guard_returns_inputs (kn : list vec -> nat -> list (list nat))
    (ri : nat -> nat -> nat) (un : nat -> R)
    (features : matrix) (labels : list Z) (s : Z) (sample_method : string) :
  s = 0%Z \/ (minority_count labels <= 1)%Z ->
  balance_features_labels kn ri un features labels s sample_method
  = Ok (Some (features, labels)).
Proof.
  intros H. unfold balance_features_labels. rewrite length_minority_indices.
  replace ((minority_count labels <=? 1)%Z || (s =? 0)%Z)%bool with true;
    [reflexivity|].
  symmetry. apply orb_true_iff.
  destruct H as [H|H]; [right; apply Z.eqb_eq; exact H|left; apply Z.leb_le; exact H].
Qed.

Lemma squeeze_matrix (m : matrix) :
  nrows m <> 1%nat -> ncols m <> 1%nat -> squeeze m = Matrix2 m.
Proof.
  intros Hr Hc. unfold squeeze.
  apply Nat.eqb_neq in Hr. apply Nat.eqb_neq in Hc. rewrite Hr, Hc. reflexivity.
Qed.

Section ForwardFurther.

Context {L : Library}.

(** The forward pass up to the readout. *)
Lemma forward_to_readout (self : SLADGNN) (data : graph edges)
    (mode : string) (s : Z) (sample_method : string)
    (O : Type) (output : O) (w w1 : world)
    (emb xb : matrix) (yb : list Z) :
  GNN_forward (GNN self) data w = (Ok emb, w1) ->
  nrows emb = length (y data) ->
  (if String.eqb mode "train"
   then balance_features_labels smote_kneighbors smote_randint smote_uniform
          emb (y data) s sample_method = Ok (Some (xb, yb))
   else (xb, yb) = (emb, y data)) ->
  dim2 (prototype_layer self) = ncols emb -> ncols emb <> 0%nat ->
  exists S,
    ncols S = length (concat (data3 (prototype_layer self))) /\
    nrows S = length yb /\
    SLADGNN_forward self data mode s sample_method output w
    = mbind (MLPReadout_forward (mlp self) S)
            (fun x2 => ret (squeeze (map_matrix sigmoid x2), map IZR yb)) w1.
Proof.
  intros Henc Hrows Hbal Hdim Hnz.
  assert (Hxy :
            (if String.eqb mode "train" then
               mbind (lift (balance_features_labels
                              smote_kneighbors smote_randint smote_uniform
                              emb (y data) s sample_method))
                     (fun r => lift (unpack_pair r))
             else ret (emb, y data)) w1 = (Ok (xb, yb), w1) /\
            ncols xb = ncols emb /\ nrows xb = length yb).
  { destruct (String.eqb mode "train").
    - unfold mbind, lift. rewrite Hbal. split; [reflexivity|].
      eapply balance_shape; eassumption.
    - inversion Hbal; subst. split; [reflexivity|].
      split; [reflexivity|exact Hrows]. }
  destruct Hxy as [Hxy [Hcb Hrb]].
  assert (Hresh : reshape_last (prototype_layer self)
                  = Ok (Mat (dim2 (prototype_layer self))
                            (concat (data3 (prototype_layer self))))).
  { unfold reshape_last.
    destruct (Nat.eqb_spec (dim2 (prototype_layer self)) 0) as [E|E];
      [congruence|reflexivity]. }
  destruct (calculate_similarity_shape xb
              (Mat (dim2 (prototype_layer self))
                   (concat (data3 (prototype_layer self)))))
    as [S [Hsim [HcS HrS]]]; [cbn [ncols]; congruence|].
  exists S. split; [exact HcS|]. split; [exact (eq_trans HrS Hrb)|].
  unfold SLADGNN_forward.
  rewrite (mbind_ok _ _ _ _ _ Henc), (mbind_ok _ _ _ _ _ Hxy).
  unfold mbind at 1. unfold lift at 1. rewrite Hresh.
  unfold mbind at 1. unfold lift at 1. cbn [fst]. rewrite Hsim.
  reflexivity.
Qed.

(** X22.  In train mode a sampling method that is neither SMOTE nor copy
    makes the forward pass raise [TypeError] when the balancer gets past
    its guard (at least two minority members, scale factor not zero): the
    [None] it returns cannot be unpacked into a pair. *)
Theorem forward_unknown_method_raises (self : SLADGNN) (data : graph edges)
    (s : Z) (sample_method : string) (O : Type) (output : O)
    (w w1 : world) (emb : matrix) :
  GNN_forward (GNN self) data w = (Ok emb, w1) ->
  (2 <= minority_count (y data))%Z -> s <> 0%Z ->
  sample_method <> "SMOTE" -> sample_method <> "copy" ->
  SLADGNN_forward self data "train" s sample_method output w
  = (Raise (TypeError "cannot unpack non-iterable NoneType object"), w1).
Proof.
  intros Henc Hm Hs Hsm Hcp. unfold SLADGNN_forward.
  rewrite (mbind_ok _ _ _ _ _ Henc).
  change (String.eqb "train" "train") with true. cbv iota.
  unfold balance_features_labels.
  rewrite (guard_passes_nonzero (y data) s Hm Hs).
  apply String.eqb_neq in Hsm. apply String.eqb_neq in Hcp.
  rewrite Hsm, Hcp. reflexivity.
Qed.

(** X23.  Train mode without oversampling is eval mode: with scale factor
    zero, or with at most one minority member, a train-mode call has the
    outcome of a call in any other mode, whatever the sampling methods,
    scale factors and [output] arguments of the two calls. *)
Theorem forward_train_without_oversampling (self : SLADGNN)
    (data : graph edges) (s s' : Z) (sample_method sample_method' mode' : string)
    (O O' : Type) (output : O) (output' : O') (w : world) :
  s = 0%Z \/ (minority_count (y data) <= 1)%Z -> mode' <> "train" ->
  SLADGNN_forward self data "train" s sample_method output w
  = SLADGNN_forward self data mode' s' sample_method' output' w.
Proof.
  intros Hno Hmode. unfold SLADGNN_forward.
  apply String.eqb_neq in Hmode. rewrite Hmode.
  change (String.eqb "train" "train") with true. cbv iota.
  unfold mbind at 1. symmetry. unfold mbind at 1. symmetry.
  destruct (GNN_forward (GNN self) data w) as [[emb|e] w1]; [|reflexivity].
  unfold mbind at 1. symmetry. unfold mbind at 1. symmetry.
  unfold mbind at 1. unfold lift at 1.
  rewrite (balance_guard_returns_inputs _ _ _ emb (y data) s sample_method Hno).
  reflexivity.
Qed.

(** X24.  [squeeze] removes only axes of size one: with a readout of output
    width other than one and a number of scored rows other than one, the
    probabilities returned are a 2-D matrix, one row per returned label,
    not a vector. *)
Theorem forward_wide_readout_returns_matrix (self : SLADGNN)
    (data : graph edges) (mode : string) (s : Z) (sample_method : string)
    (O : Type) (output : O) (w w1 : world)
    (emb xb : matrix) (yb : list Z) (o : nat) :
  GNN_forward (GNN self) data w = (Ok emb, w1) ->
  nrows emb = length (y data) ->
  (if String.eqb mode "train"
   then balance_features_labels smote_kneighbors smote_randint smote_uniform
          emb (y data) s sample_method = Ok (Some (xb, yb))
   else (xb, yb) = (emb, y data)) ->
  dim2 (prototype_layer self) = ncols emb -> ncols emb <> 0%nat ->
  readout_width (mlp self) (length (concat (data3 (prototype_layer self))))
  = Some o ->
  o <> 1%nat -> length yb <> 1%nat ->
  exists p w2,
    SLADGNN_forward self data mode s sample_method output w
    = (Ok (Matrix2 p, map IZR yb), w2) /\
    nrows p = length yb /\ ncols p = o.
Proof.
  intros Henc Hrows Hbal Hdim Hnz Hmlp Ho Hy.
  destruct (forward_to_readout self data mode s sample_method O output w w1
              emb xb yb Henc Hrows Hbal Hdim Hnz) as (S & HcS & HrS & Hrun).
  destruct (MLPReadout_forward_total (mlp self) S o w1)
    as (out & w2 & Hout & Hco & Hro); [rewrite HcS; exact Hmlp|].
  exists (map_matrix sigmoid out), w2.
  assert (Hn : nrows (map_matrix sigmoid out) = length yb).
  { unfold nrows, map_matrix. cbn [rows]. rewrite length_map.
    exact (eq_trans Hro HrS). }
  split; [|split; [exact Hn|exact Hco]].
  rewrite Hrun, (mbind_ok _ _ _ _ _ Hout). unfold ret.
  rewrite squeeze_matrix; [reflexivity| |].
  - rewrite Hn. exact Hy.
  - cbn [map_matrix ncols]. rewrite Hco. exact Ho.
Qed.

(** X25.  The constructor does not compare [mlp_input_dim] with the number
    of prototypes.  A model built with [mlp_input_dim] other than
    [num_classes * num_prototypes_per_class] fails in its forward pass:
    outside train mode, once the encoder has returned embeddings of the
    width of the prototype bank, the readout raises [RuntimeError]. *)
Theorem forward_mlp_input_dim_mismatch (c : config) (w0 w0' : world)
    (self : SLADGNN) (data : graph edges) (mode : string) (s : Z)
    (sample_method : string) (O : Type) (output : O) (w w1 : world)
    (emb : matrix) :
  SLADGNN_init c w0 = (Ok self, w0') ->
  mlp_input_dim c <> (num_classes c * num_prototypes_per_class c)%nat ->
  GNN_forward (GNN self) data w = (Ok emb, w1) ->
  nrows emb = length (y data) ->
  ncols emb = encoder_width c -> encoder_width c <> 0%nat ->
  mode <> "train" ->
  exists w2,
    SLADGNN_forward self data mode s sample_method output w
    = (Raise (RuntimeError "mat1 and mat2 shapes cannot be multiplied"), w2).
Proof.
  intros Hinit Hneq Henc Hrows Hwidth Hnz Hmode.
  destruct (SLADGNN_init_parts c w0 w0' self Hinit) as (_ & wa & wb & Hp & Hr).
  destruct (new_randn_spec (num_classes c) (num_prototypes_per_class c)
              (encoder_width c) wa)
    as (t & wc & Ht & _ & _ & H2 & Hlen & _ & _).
  rewrite Hp in Ht. inversion Ht; subst t wc.
  destruct (MLPReadout_init_spec (mlp_input_dim c) (mlp_output_dim c)
              default_dropout default_n_layers wb)
    as (r & wd & Hr' & _ & _ & _ & _ & _ & (fc & Hfc & Hin) & Hrate).
  rewrite Hr in Hr'. inversion Hr'; subst r wd.
  destruct (forward_to_readout self data mode s sample_method O output w w1
              emb emb (y data) Henc Hrows) as (S & HcS & HrS & Hrun).
  { apply String.eqb_neq in Hmode. rewrite Hmode. reflexivity. }
  { rewrite H2. symmetry. exact Hwidth. }
  { rewrite Hwidth. exact Hnz. }
  destruct (MLPReadout_forward_rejects (mlp self) fc S w1) as [w2 Hrej].
  { left. rewrite Hrate. apply rate_refused_false.
    exact default_dropout_in_range. }
  { exact Hfc. }
  { rewrite HcS, Hlen, Hin. intros E. apply Hneq. symmetry. exact E. }
  exists w2. rewrite Hrun. unfold mbind. rewrite Hrej. reflexivity.
Qed.

(** X26.  Construction and forward pass fit together.  For a model built
    from a configuration with
    [mlp_input_dim = num_classes * num_prototypes_per_class] and
    [mlp_output_dim = 1], a forward call outside train mode whose encoder
    returns one embedding row per label, of the encoder's output width,
    returns the input labels cast to float and one probability per
    label. *)
Theorem constructed_model_scores_every_node (c : config) (w0 w0' : world)
    (self : SLADGNN) (data : graph edges) (mode : string) (s : Z)
    (sample_method : string) (O : Type) (output : O) (w w1 : world)
    (emb : matrix) :
  SLADGNN_init c w0 = (Ok self, w0') ->
  mlp_input_dim c = (num_classes c * num_prototypes_per_class c)%nat ->
  mlp_output_dim c = 1%nat ->
  GNN_forward (GNN self) data w = (Ok emb, w1) ->
  nrows emb = length (y data) ->
  ncols emb = encoder_width c -> encoder_width c <> 0%nat ->
  mode <> "train" ->
  exists p w2,
    SLADGNN_forward self data mode s sample_method output w
    = (Ok (p, map IZR (y data)), w2) /\
    length (elements p) = length (y data).
Proof.
  intros Hinit Hin Hout Henc Hrows Hwidth Hnz Hmode.
  destruct (SLADGNN_init_parts c w0 w0' self Hinit) as (_ & wa & wb & Hp & Hr).
  destruct (new_randn_spec (num_classes c) (num_prototypes_per_class c)
              (encoder_width c) wa)
    as (t & wc & Ht & _ & _ & H2 & Hlen & _ & _).
  rewrite Hp in Ht. inversion Ht; subst t wc.
  destruct (MLPReadout_init_spec (mlp_input_dim c) (mlp_output_dim c)
              default_dropout default_n_layers wb)
    as (r & wd & Hr' & _ & _ & _ & _ & Hrw & _).
  rewrite Hr in Hr'. inversion Hr'; subst r wd.
  destruct (forward_scores self data mode s sample_method O output w w1
              emb emb (y data) Henc Hrows)
    as (p & w2 & Hrun & Hl & _).
  { apply String.eqb_neq in Hmode. rewrite Hmode. reflexivity. }
  { rewrite H2. symmetry. exact Hwidth. }
  { rewrite Hwidth. exact Hnz. }
  { rewrite Hlen, <- Hin, <- Hout. exact (Hrw default_dropout_in_range). }
  exists p, w2. split; [exact Hrun|exact Hl].
Qed.

End ForwardFurther.

(** ** Instances of the further properties *)

Lemma balance_only_appends_witness :
  exists features' labels',
    balance_features_labels index_neighbors first_pick half_step
      five_rows five_labels 2 "copy" = Ok (Some (features', labels')) /\
    ncols features' = 1%nat /\
    exists new_labels, labels' = five_labels ++ new_labels.
Proof.
  pose (r := match balance_features_labels index_neighbors first_pick
                     half_step five_rows five_labels 2 "copy" with
             | Ok (Some p) => p
             | _ => (five_rows, [])
             end).
  assert (H : balance_features_labels index_neighbors first_pick half_step
                five_rows five_labels 2 "copy" = Ok (Some (fst r, snd r)))
    by reflexivity.
  destruct (balance_only_appends index_neighbors first_pick half_step
              five_rows (fst r) five_labels (snd r) 2 "copy" H)
    as [Hc [nr [nl [_ [Hl _]]]]].
  exists (fst r), (snd r). split; [exact H|]. split; [exact Hc|].
  exists nl. exact Hl.
Defined.

Lemma balance_copy_class_counts_witness :
  exists features' labels',
    balance_features_labels index_neighbors first_pick half_step
      five_rows five_labels 2 "copy" = Ok (Some (features', labels')) /\
    count_label 1 labels' = 6%Z /\ count_label 0 labels' = 3%Z.
Proof.
  pose (r := match balance_features_labels index_neighbors first_pick
                     half_step five_rows five_labels 2 "copy" with
             | Ok (Some p) => p
             | _ => (five_rows, [])
             end).
  assert (H : balance_features_labels index_neighbors first_pick half_step
                five_rows five_labels 2 "copy" = Ok (Some (fst r, snd r)))
    by reflexivity.
  assert (Hm : (2 <= minority_count five_labels)%Z)
    by (apply Z.leb_le; reflexivity).
  assert (Hs : (1 <= 2)%Z) by (apply Z.leb_le; reflexivity).
  destruct (balance_copy_class_counts index_neighbors first_pick half_step
              five_rows (fst r) five_labels (snd r) 2 H Hm Hs) as [H1 H0].
  exists (fst r), (snd r). split; [exact H|]. split; [exact H1|].
  apply (H0 0%Z). discriminate.
Defined.

Lemma balance_SMOTE_class_counts_witness :
  exists features' labels',
    balance_features_labels index_neighbors first_pick half_step
      five_rows five_labels 3 "SMOTE" = Ok (Some (features', labels')) /\
    count_label 1 labels' = 6%Z /\ count_label 0 labels' = 3%Z.
Proof.
  pose (r := match balance_features_labels index_neighbors first_pick
                     half_step five_rows five_labels 3 "SMOTE" with
             | Ok (Some p) => p
             | _ => (five_rows, [])
             end).
  assert (H : balance_features_labels index_neighbors first_pick half_step
                five_rows five_labels 3 "SMOTE" = Ok (Some (fst r, snd r)))
    by reflexivity.
  assert (Hm : (2 <= minority_count five_labels)%Z)
    by (apply Z.leb_le; reflexivity).
  assert (Hs : (1 <= 3)%Z) by (apply Z.leb_le; reflexivity).
  destruct (balance_SMOTE_class_counts index_neighbors first_pick half_step
              five_rows (fst r) five_labels (snd r) 3 H Hm Hs) as [H1 H0].
  exists (fst r), (snd r). split; [exact H|]. split; [exact H1|].
  apply (H0 0%Z). discriminate.
Defined.

Lemma balance_SMOTE_scale_one_unchanged_witness :
  balance_features_labels index_neighbors first_pick half_step
    five_rows five_labels 1 "SMOTE" = Ok (Some (five_rows, five_labels)).
Proof.
  apply balance_SMOTE_scale_one_unchanged.
  - reflexivity.
  - discriminate.
  - apply Z.leb_le. reflexivity.
Defined.

Lemma balance_negative_scale_raises_witness :
  balance_features_labels index_neighbors first_pick half_step
    five_rows five_labels (-1) "copy"
  = Raise (RuntimeError "negative dimension") /\
  exists msg,
    balance_features_labels index_neighbors first_pick half_step
      five_rows five_labels (-1) "SMOTE" = Raise (ValueError msg).
Proof.
  apply balance_negative_scale_raises.
  - apply Z.leb_le. reflexivity.
  - reflexivity.
Defined.

Lemma balance_copy_short_features_raises_witness :
  balance_features_labels index_neighbors first_pick half_step
    four_rows five_labels 2 "copy"
  = Raise (IndexError "index out of range").
Proof.
  apply (balance_copy_short_features_raises index_neighbors first_pick
           half_step four_rows five_labels 2 4).
  - apply Z.leb_le. reflexivity.
  - apply Z.leb_le. reflexivity.
  - right. left. reflexivity.
  - apply Nat.leb_le. reflexivity.
Defined.

Lemma balance_keeps_well_formed_witness :
  exists features' labels',
    balance_features_labels index_neighbors first_pick half_step
      five_rows five_labels 2 "copy" = Ok (Some (features', labels')) /\
    wf_matrix features'.
Proof.
  pose (r := match balance_features_labels index_neighbors first_pick
                     half_step five_rows five_labels 2 "copy" with
             | Ok (Some p) => p
             | _ => (five_rows, [])
             end).
  assert (H : balance_features_labels index_neighbors first_pick half_step
                five_rows five_labels 2 "copy" = Ok (Some (fst r, snd r)))
    by reflexivity.
  assert (Hwf : wf_matrix five_rows) by (repeat constructor).
  exists (fst r), (snd r). split; [exact H|].
  apply (balance_keeps_well_formed index_neighbors first_pick half_step
           five_rows (fst r) five_labels (snd r) 2 "copy");
    [discriminate|exact Hwf|exact H].
Defined.

Lemma calculate_similarity_width_mismatch_witness :
  calculate_similarity five_rows (Mat 3 [[0%R; 0%R; 0%R]])
  = Raise (RuntimeError "expand: the sizes of the last axis do not match").
Proof.
  apply calculate_similarity_width_mismatch; discriminate.
Defined.

Lemma calculate_similarity_transposes_witness :
  exists S S',
    calculate_similarity five_rows two_prototypes = Ok S /\
    calculate_similarity two_prototypes five_rows = Ok S' /\
    entry S 3 1 = entry S' 1 3.
Proof.
  pose (S := match calculate_similarity five_rows two_prototypes with
             | Ok m => m
             | Raise _ => five_rows
             end).
  pose (S' := match calculate_similarity two_prototypes five_rows with
              | Ok m => m
              | Raise _ => five_rows
              end).
  assert (H : calculate_similarity five_rows two_prototypes = Ok S)
    by reflexivity.
  assert (H' : calculate_similarity two_prototypes five_rows = Ok S')
    by reflexivity.
  exists S, S'. split; [exact H|]. split; [exact H'|].
  apply (calculate_similarity_transposes five_rows two_prototypes S S' 3 1
           eq_refl H H').
  - apply Nat.ltb_lt. reflexivity.
  - apply Nat.ltb_lt. reflexivity.
Defined.


Lemma MultiLayerGCN_init_layers_witness :
  exists g w',
    MultiLayerGCN_init (L := edgeless) 8 [16; 16]%nat "relu" fresh_world
    = (Ok g, w') /\
    length (conv_layers g) = 2%nat /\
    allocated w' = [A_GCNConv 8 16; A_GCNConv (16 * 1) 16].
Proof.
  destruct (proj2 (MultiLayerGCN_init_layers (L := edgeless) 8 [16; 16]%nat
                     "relu" fresh_world))
    as (g & w' & H & _ & Hlen & Hal); [discriminate|].
  exists g, w'. split; [exact H|]. split; [exact Hlen|exact Hal].
Defined.

Lemma MultiLayerGAT_init_layers_witness :
  exists g w',
    MultiLayerGAT_init (L := edgeless) 8 [16; 4]%nat "relu" 2 (1 / 5)%R
      fresh_world = (Ok g, w') /\
    length (gat_layers g) = 2%nat /\
    allocated w' = [A_GATConv 8 16 2; A_GATConv (16 * 2) 4 2].
Proof.
  destruct (proj2 (MultiLayerGAT_init_layers (L := edgeless) 8 [16; 4]%nat
                     "relu" 2 (1 / 5)%R fresh_world))
    as (g & w' & H & _ & Hlen & Hal); [discriminate|].
  exists g, w'. split; [exact H|]. split; [exact Hlen|exact Hal].
Defined.

Lemma MultiLayerGTC_init_layers_witness :
  exists g w',
    MultiLayerGTC_init (L := edgeless) 8 [16; 4]%nat 2 (1 / 5)%R fresh_world
    = (Ok g, w') /\
    length (gtc_layers g) = 2%nat /\ length (layerNormList g) = 2%nat /\
    allocated w'
    = [A_TransformerConv 8 16 2; A_TransformerConv (16 * 2) 4 2;
       A_LayerNorm (16 * 2); A_LayerNorm (4 * 2)].
Proof.
  destruct (proj2 (MultiLayerGTC_init_layers (L := edgeless) 8 [16; 4]%nat
                     2 (1 / 5)%R fresh_world))
    as (g & w' & H & Hl & Hn & Hal); [discriminate|].
  exists g, w'. split; [exact H|]. split; [exact Hl|]. split; [exact Hn|exact Hal].
Defined.

Lemma relu_encoder_output_nonnegative_witness :
  exists out,
    MultiLayerGCN_forward (L := edgeless)
      (mkGCN (L := edgeless) "relu" [fst (counter_linear 8 2 0)])
      two_nodes fresh_world = (Ok out, fresh_world) /\
    nonnegative out.
Proof.
  pose (out := match fst (MultiLayerGCN_forward (L := edgeless)
                            (mkGCN (L := edgeless) "relu"
                               [fst (counter_linear 8 2 0)])
                            two_nodes fresh_world) with
               | Ok m => m
               | Raise _ => Mat 0 []
               end).
  assert (H : MultiLayerGCN_forward (L := edgeless)
                (mkGCN (L := edgeless) "relu" [fst (counter_linear 8 2 0)])
                two_nodes fresh_world = (Ok out, fresh_world)) by reflexivity.
  exists out. split; [exact H|].
  apply (proj1 (relu_encoder_output_nonnegative (L := edgeless) two_nodes
                  fresh_world fresh_world out)
           [fst (counter_linear 8 2 0)]); [discriminate|exact H].
Defined.


Lemma MLPReadout_forward_wrong_width_witness :
  MLPReadout_forward (L := edgeless) overrated_readout five_rows fresh_world
  = (Raise (ValueError "dropout probability has to be between 0 and 1"),
     fresh_world) /\
  exists w',
    MLPReadout_forward (L := edgeless) (mlp small_model) five_rows fresh_world
    = (Raise (RuntimeError "mat1 and mat2 shapes cannot be multiplied"), w').
Proof.
  split.
  - apply (proj1 (MLPReadout_forward_wrong_width (L := edgeless)
                    overrated_readout five_rows fresh_world)).
    + discriminate.
    + right. change (dropout overrated_readout) with 2%R. lra.
  - apply (proj2 (MLPReadout_forward_wrong_width (L := edgeless)
                    (mlp small_model) five_rows fresh_world)
             (mkLinear 2 1 [[1%R; 1%R]] [0%R])).
    + left. change (dropout (mlp small_model)) with (1 / 10)%R. lra.
    + reflexivity.
    + discriminate.
Defined.

Lemma MLPReadout_forward_eval_deterministic_witness :
  exists r,
    forall w, MLPReadout_forward (L := edgeless) eval_readout
                (Mat 2 [[1%R; 2%R]]) w = (r, w).
Proof.
  apply (MLPReadout_forward_eval_deterministic (L := edgeless)).
  reflexivity.
Defined.

Lemma MLP_init_forward_witness :
  exists self w',
    MLP_init (L := edgeless) 6 32 1 "tanh" fresh_world = (Ok self, w') /\
    allocated w' = [A_Linear 6 32; A_Linear 32 1] /\
    exists out,
      MLP_forward (L := edgeless) self (Mat 6 [repeat 1%R 6]) = Ok out /\
      ncols out = 1%nat /\ nrows out = 1%nat.
Proof.
  destruct (MLP_init_forward (L := edgeless) 6 32 1 "tanh" fresh_world)
    as (self & w' & H & _ & Hal & Hf).
  exists self, w'. split; [exact H|]. split; [exact Hal|].
  exact (Hf (Mat 6 [repeat 1%R 6]) eq_refl).
Defined.

Lemma SLADGNN_init_shapes_witness :
  exists m w',
    SLADGNN_init (L := edgeless) tiny_config fresh_world = (Ok m, w') /\
    dim2 (prototype_layer m) = 2%nat /\
    length (concat (data3 (prototype_layer m))) = 2%nat /\
    readout_width (mlp m) 2 = Some 1%nat.
Proof.
  pose (r := SLADGNN_init (L := edgeless) tiny_config fresh_world).
  pose (m := match fst r with Ok m => m | Raise _ => small_model end).
  assert (H : SLADGNN_init (L := edgeless) tiny_config fresh_world
              = (Ok m, snd r)) by reflexivity.
  destruct (SLADGNN_init_shapes (L := edgeless) tiny_config fresh_world
              (snd r) m H) as (_ & _ & _ & H2 & Hlen & _ & _ & Hw).
  exists m, (snd r). split; [exact H|]. split; [exact H2|].
  split; [exact Hlen|exact Hw].
Defined.

Lemma SLADGNN_init_empty_hidden_sizes_witness :
  SLADGNN_init (L := edgeless) no_hidden_config fresh_world
  = (Raise (IndexError "list index out of range"), fresh_world).
Proof.
  apply (SLADGNN_init_empty_hidden_sizes (L := edgeless)).
  - reflexivity.
  - right. left. reflexivity.
Defined.

Lemma forward_unknown_method_raises_witness :
  SLADGNN_forward (L := edgeless) small_model ten_nodes "train" 2 "adasyn"
    tt fresh_world
  = (Raise (TypeError "cannot unpack non-iterable NoneType object"),
     fresh_world).
Proof.
  pose (emb := match fst (GNN_forward (L := edgeless) (GNN small_model)
                            ten_nodes fresh_world) with
               | Ok m => m
               | Raise _ => Mat 0 []
               end).
  assert (Henc : GNN_forward (L := edgeless) (GNN small_model) ten_nodes
                   fresh_world = (Ok emb, fresh_world)) by reflexivity.
  apply (forward_unknown_method_raises (L := edgeless) small_model ten_nodes
           2 "adasyn" unit tt fresh_world fresh_world emb Henc).
  - apply Z.leb_le. reflexivity.
  - discriminate.
  - discriminate.
  - discriminate.
Defined.

Lemma forward_train_without_oversampling_witness :
  SLADGNN_forward (L := edgeless) small_model ten_nodes "train" 0 "copy"
    tt fresh_world
  = SLADGNN_forward (L := edgeless) small_model ten_nodes "eval" 2 "SMOTE"
      true fresh_world.
Proof.
  apply (forward_train_without_oversampling (L := edgeless)).
  - left. reflexivity.
  - discriminate.
Defined.

Lemma forward_wide_readout_returns_matrix_witness :
  exists p w2,
    SLADGNN_forward (L := edgeless) wide_model ten_nodes "eval" 0 "copy"
      tt fresh_world = (Ok (Matrix2 p, map IZR (y ten_nodes)), w2) /\
    nrows p = 10%nat /\ ncols p = 2%nat.
Proof.
  pose (emb := match fst (GNN_forward (L := edgeless) (GNN wide_model)
                            ten_nodes fresh_world) with
               | Ok m => m
               | Raise _ => Mat 0 []
               end).
  assert (Henc : GNN_forward (L := edgeless) (GNN wide_model) ten_nodes
                   fresh_world = (Ok emb, fresh_world)) by reflexivity.
  assert (Hrows : nrows emb = length (y ten_nodes)) by reflexivity.
  assert (Hnz : ncols emb <> 0%nat) by (change (2 <> 0)%nat; discriminate).
  apply (forward_wide_readout_returns_matrix (L := edgeless) wide_model
           ten_nodes "eval" 0 "copy" unit tt fresh_world fresh_world
           emb emb (y ten_nodes) 2 Henc Hrows).
  - reflexivity.
  - reflexivity.
  - exact Hnz.
  - rewrite readout_width_in_range; [reflexivity|].
    change (dropout (mlp wide_model)) with (1 / 10)%R. lra.
  - discriminate.
  - discriminate.
Defined.

Lemma forward_mlp_input_dim_mismatch_witness :
  exists m w' w2,
    SLADGNN_init (L := edgeless) mismatched_config fresh_world = (Ok m, w') /\
    SLADGNN_forward (L := edgeless) m five_nodes "eval" 0 "copy" tt w'
    = (Raise (RuntimeError "mat1 and mat2 shapes cannot be multiplied"), w2).
Proof.
  pose (r := SLADGNN_init (L := edgeless) mismatched_config fresh_world).
  pose (m := match fst r with Ok m => m | Raise _ => small_model end).
  assert (H : SLADGNN_init (L := edgeless) mismatched_config fresh_world
              = (Ok m, snd r)) by reflexivity.
  pose (emb := match fst (GNN_forward (L := edgeless) (GNN m) five_nodes (snd r))
               with
               | Ok e => e
               | Raise _ => Mat 0 []
               end).
  assert (Henc : GNN_forward (L := edgeless) (GNN m) five_nodes (snd r)
                 = (Ok emb, snd r)) by reflexivity.
  assert (Hrows : nrows emb = length (y five_nodes)) by reflexivity.
  destruct (forward_mlp_input_dim_mismatch (L := edgeless) mismatched_config
              fresh_world (snd r) m five_nodes "eval" 0 "copy" unit tt
              (snd r) (snd r) emb H) as [w2 Hrun].
  - discriminate.
  - exact Henc.
  - exact Hrows.
  - reflexivity.
  - discriminate.
  - discriminate.
  - exists m, (snd r), w2. split; [exact H|exact Hrun].
Defined.

Lemma constructed_model_scores_every_node_witness :
  exists m w' p w2,
    SLADGNN_init (L := edgeless) tiny_config fresh_world = (Ok m, w') /\
    SLADGNN_forward (L := edgeless) m five_nodes "eval" 0 "copy" tt w'
    = (Ok (p, map IZR (y five_nodes)), w2) /\
    length (elements p) = 5%nat.
Proof.
  pose (r := SLADGNN_init (L := edgeless) tiny_config fresh_world).
  pose (m := match fst r with Ok m => m | Raise _ => small_model end).
  assert (H : SLADGNN_init (L := edgeless) tiny_config fresh_world
              = (Ok m, snd r)) by reflexivity.
  pose (emb := match fst (GNN_forward (L := edgeless) (GNN m) five_nodes (snd r))
               with
               | Ok e => e
               | Raise _ => Mat 0 []
               end).
  assert (Henc : GNN_forward (L := edgeless) (GNN m) five_nodes (snd r)
                 = (Ok emb, snd r)) by reflexivity.
  assert (Hrows : nrows emb = length (y five_nodes)) by reflexivity.
  destruct (constructed_model_scores_every_node (L := edgeless) tiny_config
              fresh_world (snd r) m five_nodes "eval" 0 "copy" unit tt
              (snd r) (snd r) emb H) as (p & w2 & Hrun & Hlen).
  - reflexivity.
  - reflexivity.
  - exact Henc.
  - exact Hrows.
  - reflexivity.
  - discriminate.
  - discriminate.
  - exists m, (snd r), p, w2. split; [exact H|]. split; [exact Hrun|exact Hlen].
Defined.
